(** * Wallet service: ledger mutation and reconciliation

    A shallow embedding of the use cases of the wallet service
    (package [usecases]), of the repositories they call (package
    [repositories]) and of the rows they store (package [models]).

    The use cases are written as programs over the repository calls, in
    the order the Go code issues them; a handler gives the calls their
    meaning on a store of three tables.  Timestamps are not modelled. *)

From Stdlib Require Import ZArith NArith List String Bool Lia.
Import ListNotations.
Open Scope string_scope.
Open Scope list_scope.
Open Scope Z_scope.

(** ** Go's [int64] *)

Module Int64.

Definition min_int : Z := - 2 ^ 63.
Definition max_int : Z := 2 ^ 63 - 1.

Definition in_range (z : Z) : Prop := min_int <= z <= max_int.

Definition in_rangeb (z : Z) : bool := (min_int <=? z) && (z <=? max_int).

(** Two's complement wrap-around of a result that left the range. *)
Definition wrap (z : Z) : Z := (z + 2 ^ 63) mod 2 ^ 64 - 2 ^ 63.

Definition add (a b : Z) : Z := wrap (a + b).
Definition sub (a b : Z) : Z := wrap (a - b).

End Int64.

(** ** package models

    A row is modelled by its columns.  Of the associations, [User.Wallet]
    (filled by [Preload("Wallet")]) and the three users of a transaction
    (assigned by the use cases before they return) are kept. *)

Definition uuid := N.
Definition uuid_Nil : uuid := 0%N.

Inductive TransactionType :=
| TransactionTypeCredit
| TransactionTypeDebit
| TransactionTypeTransfer.

Inductive TransactionStatus :=
| TransactionStatusPending
| TransactionStatusCompleted
| TransactionStatusFailed.

Record Wallet := mkWallet {
  Wallet_ID : uuid;
  Wallet_UserID : uuid;
  Balance : Z
}.

Record User := mkUser {
  User_ID : uuid;
  Name : string;
  Email : string;
  User_Wallet : option Wallet
}.

Record Transaction := mkTransaction {
  ID : uuid;
  UserID : uuid;
  Type_ : TransactionType;
  Amount : Z;
  Description : string;
  Status : TransactionStatus;
  Reference : string;
  FromUserID : option uuid;
  ToUserID : option uuid;
  Txn_User : User;
  FromUser : option User;
  ToUser : option User
}.

Record ReconciliationResult := mkReconciliationResult {
  Rec_UserID : uuid;
  StoredBalance : Z;
  CalculatedBalance : Z;
  Difference : Z;
  HasMismatch : bool
}.

(** The zero value of a [User] struct. *)
Definition zero_User : User := mkUser uuid_Nil "" "" None.

Definition TransactionType_eqb (a b : TransactionType) : bool :=
  match a, b with
  | TransactionTypeCredit, TransactionTypeCredit => true
  | TransactionTypeDebit, TransactionTypeDebit => true
  | TransactionTypeTransfer, TransactionTypeTransfer => true
  | _, _ => false
  end.

Definition TransactionStatus_eqb (a b : TransactionStatus) : bool :=
  match a, b with
  | TransactionStatusPending, TransactionStatusPending => true
  | TransactionStatusCompleted, TransactionStatusCompleted => true
  | TransactionStatusFailed, TransactionStatusFailed => true
  | _, _ => false
  end.

(** ** Errors *)

#[warnings="-register-all"]
Inductive error :=
| ErrRecordNotFound                      (* gorm.ErrRecordNotFound *)
| ErrDuplicateEntry (key : string)       (* unique index violated *)
| ErrTxDone                              (* sql.ErrTxDone *)
| ErrScanRange                           (* value does not fit the int64 it is scanned into *)
| ErrUnexpectedCall                      (* a mock without an expectation *)
| ErrUserNotFound
| ErrUserAlreadyExists
| ErrInsufficientFunds
| ErrInvalidAmount
| ErrTransactionExists
| ErrWalletNotFound
| ErrSameUser
| Errorf (msg : string) (wrapped : option error).

(** [err == target] on error values: the sentinels are compared by
    identity, and a value made by [fmt.Errorf] is equal to no sentinel. *)
Definition error_is_sentinel (err target : error) : bool :=
  match err, target with
  | ErrRecordNotFound, ErrRecordNotFound => true
  | ErrTxDone, ErrTxDone => true
  | ErrScanRange, ErrScanRange => true
  | ErrUnexpectedCall, ErrUnexpectedCall => true
  | ErrUserNotFound, ErrUserNotFound => true
  | ErrUserAlreadyExists, ErrUserAlreadyExists => true
  | ErrInsufficientFunds, ErrInsufficientFunds => true
  | ErrInvalidAmount, ErrInvalidAmount => true
  | ErrTransactionExists, ErrTransactionExists => true
  | ErrWalletNotFound, ErrWalletNotFound => true
  | ErrSameUser, ErrSameUser => true
  | _, _ => false
  end.

(** [errors.Is]: follows the chain of wrapped errors. *)
Fixpoint errors_Is (err target : error) : bool :=
  match err with
  | Errorf _ (Some inner) => errors_Is inner target
  | Errorf _ None => false
  | _ => error_is_sentinel err target
  end.

(** A Go result pair [(value, error)]. *)
Inductive result (A : Type) :=
| Ok (a : A)
| Err (e : error).
Arguments Ok {A} a.
Arguments Err {A} e.

(** ** The store: three tables

    A table is the list of its rows in the order they were inserted.
    The primary keys and the unique indexes ([users.email],
    [wallets.user_id], [transactions.reference]) are checked when a row
    is inserted; no row is ever deleted. *)

Record Store := mkStore {
  users : list User;
  wallets : list Wallet;
  transactions : list Transaction
}.

Definition empty_Store : Store := mkStore [] [] [].

Section Tables.

Context {R : Type} (pk : R -> uuid).

(** The row with the least primary key, the earlier one on a tie. *)
Fixpoint min_by (rows : list R) : option R :=
  match rows with
  | [] => None
  | r :: rest =>
      match min_by rest with
      | None => Some r
      | Some m => if (pk r <=? pk m)%N then Some r else Some m
      end
  end.

(** gorm's [First(&row, cond)]: [ORDER BY id LIMIT 1]. *)
Definition First (cond : R -> bool) (tbl : list R) : result R :=
  match min_by (filter cond tbl) with
  | Some r => Ok r
  | None => Err ErrRecordNotFound
  end.

Definition has_pk (id : uuid) (tbl : list R) : bool :=
  existsb (fun r => (pk r =? id)%N) tbl.

End Tables.

Definition option_uuid_is (o : option uuid) (id : uuid) : bool :=
  match o with
  | Some x => (x =? id)%N
  | None => false
  end.

(** [Preload("Wallet")] on a user that was found. *)
Definition preload_Wallet (s : Store) (u : User) : User :=
  mkUser (User_ID u) (Name u) (Email u)
         (find (fun w => (Wallet_UserID w =? User_ID u)%N) (wallets s)).

(** userRepository.GetByID *)
Definition users_GetByID (s : Store) (id : uuid) : result User :=
  match First User_ID (fun u => (User_ID u =? id)%N) (users s) with
  | Ok u => Ok (preload_Wallet s u)
  | Err e => Err e
  end.

(** userRepository.GetByEmail *)
Definition users_GetByEmail (s : Store) (email : string) : result User :=
  match First User_ID (fun u => String.eqb (Email u) email) (users s) with
  | Ok u => Ok (preload_Wallet s u)
  | Err e => Err e
  end.

(** walletRepository.GetByUserID *)
Definition wallets_GetByUserID (s : Store) (userID : uuid) : result Wallet :=
  First Wallet_ID (fun w => (Wallet_UserID w =? userID)%N) (wallets s).

(** transactionRepository.GetByReference *)
Definition transactions_GetByReference (s : Store) (reference : string)
  : result Transaction :=
  First ID (fun t => String.eqb (Reference t) reference) (transactions s).

(** The [CASE] of the query of GetUserTransactionSum, one [WHEN] per line. *)
Definition sum_case (userID : uuid) (t : Transaction) : Z :=
  if TransactionType_eqb (Type_ t) TransactionTypeCredit then Amount t
  else if TransactionType_eqb (Type_ t) TransactionTypeDebit
          && (UserID t =? userID)%N then - Amount t
  else if TransactionType_eqb (Type_ t) TransactionTypeTransfer
          && option_uuid_is (FromUserID t) userID then - Amount t
  else if TransactionType_eqb (Type_ t) TransactionTypeTransfer
          && option_uuid_is (ToUserID t) userID then Amount t
  else 0.

(** The [WHERE] of the same query. *)
Definition sum_where (userID : uuid) (t : Transaction) : bool :=
  ((UserID t =? userID)%N
   || option_uuid_is (FromUserID t) userID
   || option_uuid_is (ToUserID t) userID)
  && TransactionStatus_eqb (Status t) TransactionStatusCompleted.

Definition sum_Z (l : list Z) : Z := fold_right Z.add 0 l.

(** transactionRepository.GetUserTransactionSum: [COALESCE(SUM(...), 0)]
    is exact in the database; scanning it into the [int64] field fails
    when it does not fit. *)
Definition transactions_GetUserTransactionSum (s : Store) (userID : uuid)
  : result Z :=
  let sum := sum_Z (map (sum_case userID)
                        (filter (sum_where userID) (transactions s))) in
  if Int64.in_rangeb sum then Ok sum else Err ErrScanRange.

(** *** Writes *)

Inductive Write :=
| InsertUser (u : User)
| InsertWallet (w : Wallet)
| InsertTransaction (t : Transaction)
| UpdateBalance (userID : uuid) (newBalance : Z).

Definition set_Balance (newBalance : Z) (w : Wallet) : Wallet :=
  mkWallet (Wallet_ID w) (Wallet_UserID w) newBalance.

(** [UPDATE wallets SET balance = ? WHERE user_id = ?] *)
Definition update_balance (userID : uuid) (newBalance : Z) (w : Wallet) : Wallet :=
  if (Wallet_UserID w =? userID)%N then set_Balance newBalance w else w.

Definition apply_write (wr : Write) (s : Store) : Store :=
  match wr with
  | InsertUser u => mkStore (users s ++ [u]) (wallets s) (transactions s)
  | InsertWallet w => mkStore (users s) (wallets s ++ [w]) (transactions s)
  | InsertTransaction t => mkStore (users s) (wallets s) (transactions s ++ [t])
  | UpdateBalance userID newBalance =>
      mkStore (users s) (map (update_balance userID newBalance) (wallets s))
              (transactions s)
  end.

Definition apply_writes (ws : list Write) (s : Store) : Store :=
  fold_left (fun acc wr => apply_write wr acc) ws s.

(** The unique indexes an [INSERT] is checked against. *)
Definition check_insert (wr : Write) (s : Store) : option error :=
  match wr with
  | InsertUser u =>
      if has_pk User_ID (User_ID u) (users s) then Some (ErrDuplicateEntry "PRIMARY")
      else if existsb (fun x => String.eqb (Email x) (Email u)) (users s)
           then Some (ErrDuplicateEntry "email")
      else None
  | InsertWallet w =>
      if has_pk Wallet_ID (Wallet_ID w) (wallets s) then Some (ErrDuplicateEntry "PRIMARY")
      else if existsb (fun x => (Wallet_UserID x =? Wallet_UserID w)%N) (wallets s)
           then Some (ErrDuplicateEntry "user_id")
      else None
  | InsertTransaction t =>
      if has_pk ID (ID t) (transactions s) then Some (ErrDuplicateEntry "PRIMARY")
      else if existsb (fun x => String.eqb (Reference x) (Reference t)) (transactions s)
           then Some (ErrDuplicateEntry "reference")
      else None
  | UpdateBalance _ _ => None
  end.

(** ** The database connection, as the use cases see it *)

(** What [log.Printf] is given, before formatting. *)
Inductive logmsg :=
| LogStarting
| LogSumFailed (userID : uuid) (err : error)
| LogMismatch (userID : uuid) (stored calculated difference : Z)
| LogCompleted (checked mismatches : nat).

(** The committed store, the writes of the open unit of work (if any),
    what the other callers commit before each of the next statements,
    the values [uuid.New] draws, and the log. *)
Record World := mkWorld {
  committed : Store;
  tx : option (list Write);
  others : list (Store -> Store);
  entropy : nat -> uuid;
  drawn : nat;
  logs : list logmsg
}.

(** A world without concurrent callers. *)
Definition alone (s : Store) (e : nat -> uuid) : World :=
  mkWorld s None [] e 0%nat [].

(** Which connection a repository was built on: [repos.DB], or the
    [tx] that [WithTransaction] wraps. *)
Inductive conn := BaseDB | TxDB.

(** One round trip to the database: a concurrent caller may have
    committed since the last one. *)
Definition tick (w : World) : World :=
  match others w with
  | [] => w
  | f :: rest => mkWorld (f (committed w)) (tx w) rest (entropy w) (drawn w) (logs w)
  end.

(** The rows a statement on connection [c] reads. *)
Definition view (c : conn) (w : World) : result Store :=
  match c with
  | BaseDB => Ok (committed w)
  | TxDB =>
      match tx w with
      | Some ws => Ok (apply_writes ws (committed w))
      | None => Err ErrTxDone
      end
  end.

Definition read {A} (c : conn) (q : Store -> result A) (w : World)
  : result A * World :=
  let w := tick w in
  match view c w with
  | Ok s => (q s, w)
  | Err e => (Err e, w)
  end.

Definition write (c : conn) (wr : Write) (w : World) : result unit * World :=
  let w := tick w in
  match view c w with
  | Err e => (Err e, w)
  | Ok s =>
      match check_insert wr s with
      | Some e => (Err e, w)
      | None =>
          match c, tx w with
          | TxDB, Some ws =>
              (Ok tt, mkWorld (committed w) (Some (ws ++ [wr])) (others w)
                              (entropy w) (drawn w) (logs w))
          | _, _ =>
              (Ok tt, mkWorld (apply_write wr (committed w)) (tx w) (others w)
                              (entropy w) (drawn w) (logs w))
          end
      end
  end.

(** [uuid.New()] *)
Definition uuid_New (w : World) : uuid * World :=
  (entropy w (drawn w),
   mkWorld (committed w) (tx w) (others w) (entropy w) (S (drawn w)) (logs w)).

(** The [BeforeCreate] hooks: an id is drawn when the row has none. *)
Definition BeforeCreate (id : uuid) (w : World) : uuid * World :=
  if (id =? uuid_Nil)%N then uuid_New w else (id, w).

Definition create {R} (c : conn) (id : uuid) (with_id : uuid -> R)
           (ins : R -> Write) (w : World) : result R * World :=
  let (id', w) := BeforeCreate id w in
  let row := with_id id' in
  match write c (ins row) w with
  | (Ok _, w) => (Ok row, w)
  | (Err e, w) => (Err e, w)
  end.

Definition set_User_ID (u : User) (id : uuid) : User :=
  mkUser id (Name u) (Email u) (User_Wallet u).

Definition set_Wallet_ID (x : Wallet) (id : uuid) : Wallet :=
  mkWallet id (Wallet_UserID x) (Balance x).

Definition set_ID (t : Transaction) (id : uuid) : Transaction :=
  mkTransaction id (UserID t) (Type_ t) (Amount t) (Description t) (Status t)
                (Reference t) (FromUserID t) (ToUserID t) (Txn_User t)
                (FromUser t) (ToUser t).

(** The row as its columns hold it: the associations are not stored. *)
Definition columns_User (u : User) : User :=
  mkUser (User_ID u) (Name u) (Email u) None.

Definition columns (t : Transaction) : Transaction :=
  mkTransaction (ID t) (UserID t) (Type_ t) (Amount t) (Description t) (Status t)
                (Reference t) (FromUserID t) (ToUserID t) zero_User None None.

(** ** Programs over the repository calls *)

Inductive call : Type -> Type :=
| User_Create (c : conn) (user : User) : call (result User)
| User_GetByID (c : conn) (id : uuid) : call (result User)
| User_GetByEmail (c : conn) (email : string) : call (result User)
| Wallet_Create (c : conn) (wallet : Wallet) : call (result Wallet)
| Wallet_GetByUserID (c : conn) (userID : uuid) : call (result Wallet)
| Wallet_UpdateBalance (c : conn) (userID : uuid) (newBalance : Z) : call (result unit)
| Wallet_GetAllWallets (c : conn) : call (result (list Wallet))
| Transaction_Create (c : conn) (transaction : Transaction) : call (result Transaction)
| Transaction_GetByReference (c : conn) (reference : string) : call (result Transaction)
| Transaction_GetUserTransactionSum (c : conn) (userID : uuid) : call (result Z)
| BeginTransaction : call unit
| Commit : call (result unit)
| Rollback : call unit
| log_Print (m : logmsg) : call unit.

Inductive prog (A : Type) : Type :=
| Ret (a : A)
| Do {X : Type} (c : call X) (k : X -> prog A).
Arguments Ret {A} a.
Arguments Do {A X} c k.

Fixpoint bind {A B} (p : prog A) (f : A -> prog B) : prog B :=
  match p with
  | Ret a => f a
  | Do c k => Do c (fun x => bind (k x) f)
  end.

Notation "x <- c ;; k" := (Do c (fun x => k))
  (at level 61, c at next level, right associativity).
Notation "x <~ p ;; k" := (bind p (fun x => k))
  (at level 61, p at next level, right associativity).

(** A call that was issued, with its answer. *)
Inductive event : Type :=
| Issued : forall X : Type, call X -> X -> event.
Arguments Issued {X} c x.

Section Exec.

Context {W : Type} (handle : forall X, call X -> W -> X * W).

Fixpoint exec {A} (p : prog A) (w : W) : A * W :=
  match p with
  | Ret a => (a, w)
  | Do c k => let (x, w') := handle _ c w in exec (k x) w'
  end.

(** The calls of a run, in the order they were issued. *)
Fixpoint trace {A} (p : prog A) (w : W) : list event :=
  match p with
  | Ret _ => []
  | Do c k => let (x, w') := handle _ c w in Issued c x :: trace (k x) w'
  end.

End Exec.

(** *** The repositories over gorm *)

Definition gorm (X : Type) (c : call X) : World -> X * World :=
  match c in call X return (World -> X * World) with
  | User_Create c user =>
      create c (User_ID user) (fun id => set_User_ID user id)
             (fun u => InsertUser (columns_User u))
  | User_GetByID c id => read c (fun s => users_GetByID s id)
  | User_GetByEmail c email => read c (fun s => users_GetByEmail s email)
  | Wallet_Create c wallet =>
      create c (Wallet_ID wallet) (fun id => set_Wallet_ID wallet id) InsertWallet
  | Wallet_GetByUserID c userID => read c (fun s => wallets_GetByUserID s userID)
  | Wallet_UpdateBalance c userID newBalance => write c (UpdateBalance userID newBalance)
  | Wallet_GetAllWallets c => read c (fun s => Ok (wallets s))
  | Transaction_Create c transaction =>
      create c (ID transaction) (fun id => set_ID transaction id)
             (fun t => InsertTransaction (columns t))
  | Transaction_GetByReference c reference =>
      read c (fun s => transactions_GetByReference s reference)
  | Transaction_GetUserTransactionSum c userID =>
      read c (fun s => transactions_GetUserTransactionSum s userID)
  | BeginTransaction =>
      fun w => let w := tick w in
               (tt, mkWorld (committed w) (Some []) (others w)
                            (entropy w) (drawn w) (logs w))
  | Commit =>
      fun w => let w := tick w in
               match tx w with
               | Some ws =>
                   (Ok tt, mkWorld (apply_writes ws (committed w)) None (others w)
                                   (entropy w) (drawn w) (logs w))
               | None => (Err ErrTxDone, w)
               end
  | Rollback =>
      fun w => let w := tick w in
               (tt, mkWorld (committed w) None (others w)
                            (entropy w) (drawn w) (logs w))
  | log_Print m =>
      fun w => (tt, mkWorld (committed w) (tx w) (others w)
                            (entropy w) (drawn w) (logs w ++ [m]))
  end.

Definition run {A} (p : prog A) (w : World) : A * World := exec gorm p w.

(** ** package usecases *)

(** userUseCase.CreateUser *)
Definition CreateUser (name email : string) : prog (result User) :=
  r <- User_GetByEmail BaseDB email ;;
  match r with
  | Ok existingUser => Ret (Err ErrUserAlreadyExists)
  | Err err =>
      if negb (errors_Is err ErrRecordNotFound)
      then Ret (Err (Errorf "failed to check existing user" (Some err)))
      else
        _ <- BeginTransaction ;;
        let user := mkUser uuid_Nil name email None in
        r <- User_Create TxDB user ;;
        match r with
        | Err err =>
            _ <- Rollback ;;
            Ret (Err (Errorf "failed to create user" (Some err)))
        | Ok user =>
            let wallet := mkWallet uuid_Nil (User_ID user) 0 in
            r <- Wallet_Create TxDB wallet ;;
            match r with
            | Err err =>
                _ <- Rollback ;;
                Ret (Err (Errorf "failed to create wallet" (Some err)))
            | Ok wallet =>
                r <- Commit ;;
                match r with
                | Err err =>
                    Ret (Err (Errorf "failed to commit transaction" (Some err)))
                | Ok _ =>
                    r <- User_GetByID BaseDB (User_ID user) ;;
                    Ret r
                end
            end
        end
  end.

(** userUseCase.GetUserByID *)
Definition GetUserByID (id : uuid) : prog (result User) :=
  r <- User_GetByID BaseDB id ;;
  match r with
  | Err err =>
      if errors_Is err ErrRecordNotFound then Ret (Err ErrUserNotFound)
      else Ret (Err (Errorf "failed to get user" (Some err)))
  | Ok user => Ret (Ok user)
  end.

Definition set_Txn_User (t : Transaction) (u : User) : Transaction :=
  mkTransaction (ID t) (UserID t) (Type_ t) (Amount t) (Description t) (Status t)
                (Reference t) (FromUserID t) (ToUserID t) u (FromUser t) (ToUser t).

Definition set_Txn_Users (t : Transaction) (u from to : User) : Transaction :=
  mkTransaction (ID t) (UserID t) (Type_ t) (Amount t) (Description t) (Status t)
                (Reference t) (FromUserID t) (ToUserID t) u (Some from) (Some to).

(** walletUseCase.FundWallet *)
Definition FundWallet (userID : uuid) (amount : Z) (reference : string)
  : prog (result Transaction) :=
  if amount <=? 0 then Ret (Err ErrInvalidAmount) else
  (* Check if transaction already exists (idempotency) *)
  r <- Transaction_GetByReference BaseDB reference ;;
  match r with
  | Ok existingTxn => Ret (Ok existingTxn)
  | Err err =>
      if negb (errors_Is err ErrRecordNotFound)
      then Ret (Err (Errorf "failed to check existing transaction" (Some err)))
      else
        (* Check if user exists *)
        r <- User_GetByID BaseDB userID ;;
        match r with
        | Err err =>
            if errors_Is err ErrRecordNotFound then Ret (Err ErrUserNotFound)
            else Ret (Err (Errorf "failed to get user" (Some err)))
        | Ok user =>
            _ <- BeginTransaction ;;
            (* Get current wallet *)
            r <- Wallet_GetByUserID TxDB userID ;;
            match r with
            | Err err =>
                _ <- Rollback ;;
                Ret (Err (Errorf "failed to get wallet" (Some err)))
            | Ok wallet =>
                (* Create transaction record *)
                let transaction :=
                  mkTransaction uuid_Nil userID TransactionTypeCredit amount
                                "Wallet funding" TransactionStatusCompleted
                                reference None None zero_User None None in
                r <- Transaction_Create TxDB transaction ;;
                match r with
                | Err err =>
                    _ <- Rollback ;;
                    Ret (Err (Errorf "failed to create transaction" (Some err)))
                | Ok transaction =>
                    (* Update wallet balance *)
                    let newBalance := Int64.add (Balance wallet) amount in
                    r <- Wallet_UpdateBalance TxDB userID newBalance ;;
                    match r with
                    | Err err =>
                        _ <- Rollback ;;
                        Ret (Err (Errorf "failed to update wallet balance" (Some err)))
                    | Ok _ =>
                        r <- Commit ;;
                        match r with
                        | Err err =>
                            Ret (Err (Errorf "failed to commit transaction" (Some err)))
                        | Ok _ => Ret (Ok (set_Txn_User transaction user))
                        end
                    end
                end
            end
        end
  end.

(** walletUseCase.WithdrawFunds *)
Definition WithdrawFunds (userID : uuid) (amount : Z) (reference : string)
  : prog (result Transaction) :=
  if amount <=? 0 then Ret (Err ErrInvalidAmount) else
  (* Check if transaction already exists (idempotency) *)
  r <- Transaction_GetByReference BaseDB reference ;;
  match r with
  | Ok existingTxn => Ret (Ok existingTxn)
  | Err err =>
      if negb (errors_Is err ErrRecordNotFound)
      then Ret (Err (Errorf "failed to check existing transaction" (Some err)))
      else
        (* Check if user exists *)
        r <- User_GetByID BaseDB userID ;;
        match r with
        | Err err =>
            if errors_Is err ErrRecordNotFound then Ret (Err ErrUserNotFound)
            else Ret (Err (Errorf "failed to get user" (Some err)))
        | Ok user =>
            _ <- BeginTransaction ;;
            (* Get current wallet *)
            r <- Wallet_GetByUserID TxDB userID ;;
            match r with
            | Err err =>
                _ <- Rollback ;;
                Ret (Err (Errorf "failed to get wallet" (Some err)))
            | Ok wallet =>
                (* Check sufficient funds *)
                if Balance wallet <? amount
                then _ <- Rollback ;; Ret (Err ErrInsufficientFunds)
                else
                  (* Create transaction record *)
                  let transaction :=
                    mkTransaction uuid_Nil userID TransactionTypeDebit amount
                                  "Wallet withdrawal" TransactionStatusCompleted
                                  reference None None zero_User None None in
                  r <- Transaction_Create TxDB transaction ;;
                  match r with
                  | Err err =>
                      _ <- Rollback ;;
                      Ret (Err (Errorf "failed to create transaction" (Some err)))
                  | Ok transaction =>
                      (* Update wallet balance *)
                      let newBalance := Int64.sub (Balance wallet) amount in
                      r <- Wallet_UpdateBalance TxDB userID newBalance ;;
                      match r with
                      | Err err =>
                          _ <- Rollback ;;
                          Ret (Err (Errorf "failed to update wallet balance" (Some err)))
                      | Ok _ =>
                          r <- Commit ;;
                          match r with
                          | Err err =>
                              Ret (Err (Errorf "failed to commit transaction" (Some err)))
                          | Ok _ => Ret (Ok (set_Txn_User transaction user))
                          end
                      end
                  end
            end
        end
  end.

(** walletUseCase.TransferFunds *)
Definition TransferFunds (fromUserID toUserID : uuid) (amount : Z)
           (reference : string) : prog (result Transaction) :=
  if amount <=? 0 then Ret (Err ErrInvalidAmount) else
  if (fromUserID =? toUserID)%N then Ret (Err ErrSameUser) else
  (* Check if transaction already exists (idempotency) *)
  r <- Transaction_GetByReference BaseDB reference ;;
  match r with
  | Ok existingTxn => Ret (Ok existingTxn)
  | Err err =>
      if negb (errors_Is err ErrRecordNotFound)
      then Ret (Err (Errorf "failed to check existing transaction" (Some err)))
      else
        (* Check if both users exist *)
        r <- User_GetByID BaseDB fromUserID ;;
        match r with
        | Err err =>
            if errors_Is err ErrRecordNotFound
            then Ret (Err (Errorf "sender not found" None))
            else Ret (Err (Errorf "failed to get sender" (Some err)))
        | Ok fromUser =>
            r <- User_GetByID BaseDB toUserID ;;
            match r with
            | Err err =>
                if errors_Is err ErrRecordNotFound
                then Ret (Err (Errorf "recipient not found" None))
                else Ret (Err (Errorf "failed to get recipient" (Some err)))
            | Ok toUser =>
                _ <- BeginTransaction ;;
                (* Get sender's wallet *)
                r <- Wallet_GetByUserID TxDB fromUserID ;;
                match r with
                | Err err =>
                    _ <- Rollback ;;
                    Ret (Err (Errorf "failed to get sender wallet" (Some err)))
                | Ok fromWallet =>
                    (* Check sufficient funds *)
                    if Balance fromWallet <? amount
                    then _ <- Rollback ;; Ret (Err ErrInsufficientFunds)
                    else
                      (* Get recipient's wallet *)
                      r <- Wallet_GetByUserID TxDB toUserID ;;
                      match r with
                      | Err err =>
                          _ <- Rollback ;;
                          Ret (Err (Errorf "failed to get recipient wallet" (Some err)))
                      | Ok toWallet =>
                          (* Create transaction record *)
                          let transaction :=
                            mkTransaction uuid_Nil fromUserID TransactionTypeTransfer
                                          amount
                                          (String.append "Transfer to " (Name toUser))
                                          TransactionStatusCompleted reference
                                          (Some fromUserID) (Some toUserID)
                                          zero_User None None in
                          r <- Transaction_Create TxDB transaction ;;
                          match r with
                          | Err err =>
                              _ <- Rollback ;;
                              Ret (Err (Errorf "failed to create transaction" (Some err)))
                          | Ok transaction =>
                              (* Update sender's wallet balance *)
                              let newFromBalance :=
                                Int64.sub (Balance fromWallet) amount in
                              r <- Wallet_UpdateBalance TxDB fromUserID newFromBalance ;;
                              match r with
                              | Err err =>
                                  _ <- Rollback ;;
                                  Ret (Err (Errorf "failed to update sender wallet balance"
                                                   (Some err)))
                              | Ok _ =>
                                  (* Update recipient's wallet balance *)
                                  let newToBalance :=
                                    Int64.add (Balance toWallet) amount in
                                  r <- Wallet_UpdateBalance TxDB toUserID newToBalance ;;
                                  match r with
                                  | Err err =>
                                      _ <- Rollback ;;
                                      Ret (Err (Errorf
                                                  "failed to update recipient wallet balance"
                                                  (Some err)))
                                  | Ok _ =>
                                      r <- Commit ;;
                                      match r with
                                      | Err err =>
                                          Ret (Err (Errorf "failed to commit transaction"
                                                           (Some err)))
                                      | Ok _ =>
                                          Ret (Ok (set_Txn_Users transaction
                                                                 fromUser fromUser toUser))
                                      end
                                  end
                              end
                          end
                      end
                end
            end
        end
  end.

(** countMismatches *)
Fixpoint countMismatches (results : list ReconciliationResult) : nat :=
  match results with
  | [] => 0%nat
  | result :: rest =>
      if HasMismatch result then S (countMismatches rest) else countMismatches rest
  end.

(** The body of the loop of RunReconciliation, for one wallet. *)
Definition reconcile_wallet (wallet : Wallet) (calculatedBalance : Z)
  : ReconciliationResult :=
  let difference := Int64.sub (Balance wallet) calculatedBalance in
  let hasMismatch := negb (difference =? 0) in
  mkReconciliationResult (Wallet_UserID wallet) (Balance wallet)
                         calculatedBalance difference hasMismatch.

Fixpoint reconcile_loop (wallets : list Wallet) (results : list ReconciliationResult)
  : prog (list ReconciliationResult) :=
  match wallets with
  | [] => Ret results
  | wallet :: rest =>
      r <- Transaction_GetUserTransactionSum BaseDB (Wallet_UserID wallet) ;;
      match r with
      | Err err =>
          _ <- log_Print (LogSumFailed (Wallet_UserID wallet) err) ;;
          reconcile_loop rest results
      | Ok calculatedBalance =>
          let result := reconcile_wallet wallet calculatedBalance in
          let results := results ++ [result] in
          if HasMismatch result
          then
            _ <- log_Print (LogMismatch (Wallet_UserID wallet) (Balance wallet)
                                        calculatedBalance (Difference result)) ;;
            reconcile_loop rest results
          else reconcile_loop rest results
      end
  end.

(** reconciliationUseCase.RunReconciliation *)
Definition RunReconciliation : prog (result (list ReconciliationResult)) :=
  _ <- log_Print LogStarting ;;
  r <- Wallet_GetAllWallets BaseDB ;;
  match r with
  | Err err => Ret (Err (Errorf "failed to get wallets" (Some err)))
  | Ok wallets =>
      results <~ reconcile_loop wallets [] ;;
      _ <- log_Print (LogCompleted (List.length results) (countMismatches results)) ;;
      Ret (Ok results)
  end.

(** ** What is observed of a run *)



Inductive access :=
| ReadWallet (c : conn) (userID : uuid)
| WriteWallet (c : conn) (userID : uuid).

Definition wallet_access (ev : event) : option access :=
  match ev with
  | Issued c _ =>
      match c with
      | Wallet_GetByUserID c userID => Some (ReadWallet c userID)
      | Wallet_UpdateBalance c userID _ => Some (WriteWallet c userID)
      | _ => None
      end
  end.

(** The wallets a run reads and writes, in order. *)
Fixpoint wallet_accesses (evs : list event) : list access :=
  match evs with
  | [] => []
  | ev :: rest =>
      match wallet_access ev with
      | Some a => a :: wallet_accesses rest
      | None => wallet_accesses rest
      end
  end.

Definition accessed (a : access) : uuid :=
  match a with
  | ReadWallet _ u => u
  | WriteWallet _ u => u
  end.

Definition is_commit (ev : event) : bool :=
  match ev with
  | Issued c _ => match c with Commit => true | _ => false end
  end.

(** A fixed order of access: there is one order on the accounts, the
    same for both directions of a transfer, in which a transfer reaches
    its two wallets. *)
Definition fixed_access_order : Prop :=
  exists before : uuid -> uuid -> bool,
    (forall a b, before a b = true -> before b a = false)
    /\ forall (w : World) (fromUserID toUserID : uuid) (amount : Z)
              (reference : string) (a b : uuid) (rest : list uuid),
        map accessed
            (wallet_accesses
               (trace gorm (TransferFunds fromUserID toUserID amount reference) w))
        = a :: b :: rest ->
        before a b = true.

(** The stored balance of an owner. *)
Definition balance_of (s : Store) (userID : uuid) : option Z :=
  match wallets_GetByUserID s userID with
  | Ok wallet => Some (Balance wallet)
  | Err _ => None
  end.

(** Every balance is at least 0 and fits an int64. *)
Definition solvent (s : Store) : Prop :=
  Forall (fun wallet => 0 <= Balance wallet <= Int64.max_int) (wallets s).

Inductive operation :=
| createAccount (name email : string)
| fund (userID : uuid) (amount : Z) (reference : string)
| withdraw (userID : uuid) (amount : Z) (reference : string)
| transfer (fromUserID toUserID : uuid) (amount : Z) (reference : string).

(** The world after an operation has run to its end. *)
Definition perform (o : operation) (w : World) : World :=
  match o with
  | createAccount name email => snd (run (CreateUser name email) w)
  | fund userID amount reference => snd (run (FundWallet userID amount reference) w)
  | withdraw userID amount reference =>
      snd (run (WithdrawFunds userID amount reference) w)
  | transfer fromUserID toUserID amount reference =>
      snd (run (TransferFunds fromUserID toUserID amount reference) w)
  end.

Definition perform_all (os : list operation) (w : World) : World :=
  fold_left (fun w o => perform o w) os w.

(** The credit of the operation, if it has one, fits the int64 of the
    wallet it goes to. *)
Definition credit_fits (o : operation) (s : Store) : Prop :=
  match o with
  | fund userID amount _ | transfer _ userID amount _ =>
      forall wallet, wallets_GetByUserID s userID = Ok wallet ->
                     Balance wallet + amount <= Int64.max_int
  | _ => True
  end.

Fixpoint credits_fit (os : list operation) (w : World) : Prop :=
  match os with
  | [] => True
  | o :: rest => credit_fits o (committed w) /\ credits_fit rest (perform o w)
  end.

(** ** Repositories with canned answers *)

(** The two answers a reconciliation run asks for, as the mocks of the
    unit tests give them. *)
Record Mock := mkMock {
  mock_GetAllWallets : result (list Wallet);
  mock_GetUserTransactionSum : uuid -> result Z
}.

Definition mocked (m : Mock) (X : Type) (c : call X)
  : list logmsg -> X * list logmsg :=
  match c in call X return (list logmsg -> X * list logmsg) with
  | Wallet_GetAllWallets _ => fun l => (mock_GetAllWallets m, l)
  | Transaction_GetUserTransactionSum _ userID =>
      fun l => (mock_GetUserTransactionSum m userID, l)
  | log_Print msg => fun l => (tt, l ++ [msg])
  | BeginTransaction => fun l => (tt, l)
  | Rollback => fun l => (tt, l)
  | User_Create _ _ => fun l => (Err ErrUnexpectedCall, l)
  | User_GetByID _ _ => fun l => (Err ErrUnexpectedCall, l)
  | User_GetByEmail _ _ => fun l => (Err ErrUnexpectedCall, l)
  | Wallet_Create _ _ => fun l => (Err ErrUnexpectedCall, l)
  | Wallet_GetByUserID _ _ => fun l => (Err ErrUnexpectedCall, l)
  | Wallet_UpdateBalance _ _ _ => fun l => (Err ErrUnexpectedCall, l)
  | Transaction_Create _ _ => fun l => (Err ErrUnexpectedCall, l)
  | Transaction_GetByReference _ _ => fun l => (Err ErrUnexpectedCall, l)
  | Commit => fun l => (Err ErrUnexpectedCall, l)
  end.

(** The results of a run, given the answer to each sum: one result per
    wallet whose sum was computed, in the order of the wallets; a wallet
    whose sum failed has none. *)
Definition results_for (sum : uuid -> result Z) (wallets : list Wallet)
  : list ReconciliationResult :=
  flat_map (fun wallet =>
              match sum (Wallet_UserID wallet) with
              | Ok calculatedBalance => [reconcile_wallet wallet calculatedBalance]
              | Err _ => []
              end) wallets.

(** ** The derived balance, in the words of the specification *)

(** The sum of the signed contributions of the Completed entries that
    touch the account: +amount for a credit, -amount for a debit, and for
    a transfer -amount if the account is its source, +amount if it is its
    destination. *)

Definition is_source (account : uuid) (t : Transaction) : bool :=
  option_uuid_is (FromUserID t) account.

Definition is_destination (account : uuid) (t : Transaction) : bool :=
  option_uuid_is (ToUserID t) account.

Definition touches (account : uuid) (t : Transaction) : bool :=
  (UserID t =? account)%N || is_source account t || is_destination account t.

Definition signed_contribution (account : uuid) (t : Transaction) : Z :=
  match Type_ t with
  | TransactionTypeCredit => Amount t
  | TransactionTypeDebit => - Amount t
  | TransactionTypeTransfer =>
      (if is_source account t then - Amount t else 0)
      + (if is_destination account t then Amount t else 0)
  end.

Definition is_completed (t : Transaction) : bool :=
  match Status t with
  | TransactionStatusCompleted => true
  | _ => false
  end.

Definition derived_balance (account : uuid) (entries : list Transaction) : Z :=
  sum_Z (map (signed_contribution account)
             (filter (fun t => is_completed t && touches account t) entries)).

(** The entries of the data model: a credit or a debit names one
    account, a transfer two distinct ones. *)
Definition well_formed_entry (t : Transaction) : Prop :=
  match Type_ t with
  | TransactionTypeCredit | TransactionTypeDebit =>
      FromUserID t = None /\ ToUserID t = None
  | TransactionTypeTransfer =>
      exists a b, FromUserID t = Some a /\ ToUserID t = Some b /\ a <> b
  end.

(** ** The worlds of the examples *)

(** The ids drawn in the examples: 1, 2, 3, ... *)
Definition ids (n : nat) : uuid := N.of_nat (n + 1).

(** Two users, John and Jane, each with a wallet. *)
Definition after_setup : World :=
  snd (run (_ <~ CreateUser "John Doe" "john@example.com" ;;
            _ <~ CreateUser "Jane Smith" "jane@example.com" ;;
            Ret tt) (alone empty_Store ids)).

Definition john : uuid := 1%N.
Definition jane : uuid := 3%N.

(** The flow of the integration test: John funds 10000, withdraws
    2000 and transfers 3000 to Jane. *)
Definition after_flow : World :=
  snd (run (_ <~ FundWallet john 10000 "fund_001" ;;
            _ <~ WithdrawFunds john 2000 "withdraw_001" ;;
            _ <~ TransferFunds john jane 3000 "transfer_001" ;;
            Ret tt) after_setup).

Definition fund_001 : Transaction :=
  mkTransaction 5%N john TransactionTypeCredit 10000 "Wallet funding"
                TransactionStatusCompleted "fund_001" None None zero_User None None.

Definition nobody : uuid := 99%N.

Definition john_wallet : Wallet := mkWallet 2%N john 5000.
Definition jane_wallet : Wallet := mkWallet 4%N jane 3000.
Definition john_user : User :=
  mkUser john "John Doe" "john@example.com" (Some john_wallet).
Definition jane_user : User :=
  mkUser jane "Jane Smith" "jane@example.com" (Some jane_wallet).



(** A store in which John's balance was edited by hand. *)
Definition drifted : World :=
  alone (apply_write (UpdateBalance john 5100) (committed after_flow)) ids.

(** Canned answers in which the sum of John fails. *)
Definition failing_sums : Mock :=
  mkMock (Ok [john_wallet; jane_wallet])
         (fun userID => if (userID =? john)%N then Err ErrScanRange else Ok 2900).

(** A credit of the largest int64, and one more. *)
Definition rich : list operation :=
  [createAccount "John Doe" "john@example.com";
   fund john 9223372036854775807 "f1";
   fund john 1 "f2"].

(** ** The entries the use cases store *)

(** The row FundWallet inserts. *)
Definition credit_entry (id userID : uuid) (amount : Z) (reference : string)
  : Transaction :=
  mkTransaction id userID TransactionTypeCredit amount "Wallet funding"
                TransactionStatusCompleted reference None None zero_User None None.

(** The row WithdrawFunds inserts. *)
Definition debit_entry (id userID : uuid) (amount : Z) (reference : string)
  : Transaction :=
  mkTransaction id userID TransactionTypeDebit amount "Wallet withdrawal"
                TransactionStatusCompleted reference None None zero_User None None.

(** The row TransferFunds inserts. *)
Definition transfer_entry (id fromUserID toUserID : uuid) (amount : Z)
           (reference : string) (toName : string) : Transaction :=
  mkTransaction id fromUserID TransactionTypeTransfer amount
                (String.append "Transfer to " toName)
                TransactionStatusCompleted reference
                (Some fromUserID) (Some toUserID) zero_User None None.

(** The id [uuid.New] draws next. *)
Definition next_id (w : World) : uuid := entropy w (drawn w).

(** ** The ledger and the balances *)

(** The exact sum the query of GetUserTransactionSum computes. *)
Definition ledger_sum (s : Store) (userID : uuid) : Z :=
  sum_Z (map (sum_case userID) (filter (sum_where userID) (transactions s))).

(** Every stored balance is the sum of its owner's entries. *)
Definition reconciled (s : Store) : Prop :=
  Forall (fun wallet => Balance wallet = ledger_sum s (Wallet_UserID wallet))
         (wallets s).

Definition known_owner (s : Store) (userID : uuid) : Prop :=
  exists user, In user (users s) /\ User_ID user = userID.

(** Every entry names users that exist. *)
Definition entries_name_users (s : Store) : Prop :=
  Forall (fun t => forall userID, touches userID t = true -> known_owner s userID)
         (transactions s).

(** Every entry is Completed and has a positive amount. *)
Definition entries_completed (s : Store) : Prop :=
  Forall (fun t => Status t = TransactionStatusCompleted /\ 0 < Amount t)
         (transactions s).

(** No two entries share a reference, no two wallets an owner, and
    every user has a wallet. *)
Definition references_unique (s : Store) : Prop :=
  NoDup (map Reference (transactions s)).

Definition every_user_has_a_wallet (s : Store) : Prop :=
  Forall (fun user => exists wallet,
              In wallet (wallets s) /\ Wallet_UserID wallet = User_ID user)
         (users s).

(** ** The unit of work in a run *)

(** The connection a repository call goes through. *)
Definition conn_of {X : Type} (c : call X) : option conn :=
  match c with
  | User_Create c _ => Some c
  | User_GetByID c _ => Some c
  | User_GetByEmail c _ => Some c
  | Wallet_Create c _ => Some c
  | Wallet_GetByUserID c _ => Some c
  | Wallet_UpdateBalance c _ _ => Some c
  | Wallet_GetAllWallets c => Some c
  | Transaction_Create c _ => Some c
  | Transaction_GetByReference c _ => Some c
  | Transaction_GetUserTransactionSum c _ => Some c
  | BeginTransaction => None
  | Commit => None
  | Rollback => None
  | log_Print _ => None
  end.

(** A run uses its unit of work well: a unit is begun only when none
    is open, closed (committed or rolled back) only when one is open,
    calls through the unit are made only while it is open, calls
    through the base connection only while none is, and none is left
    open at the end.  [opened] says whether a unit is open. *)
Fixpoint bracketed (opened : bool) (evs : list event) : bool :=
  match evs with
  | [] => negb opened
  | Issued c _ :: rest =>
      match c with
      | BeginTransaction => negb opened && bracketed true rest
      | Commit => opened && bracketed false rest
      | Rollback => opened && bracketed false rest
      | _ =>
          match conn_of c with
          | Some TxDB => opened && bracketed opened rest
          | Some BaseDB => negb opened && bracketed opened rest
          | None => bracketed opened rest
          end
      end
  end.

(** A call that changes nothing in the store. *)
Definition is_query (ev : event) : bool :=
  match ev with
  | Issued c _ =>
      match c with
      | Wallet_GetAllWallets _ => true
      | Transaction_GetUserTransactionSum _ _ => true
      | log_Print _ => true
      | _ => false
      end
  end.

(** ** package handlers: the status of a response *)

(** handlers.CreateUser, after the request was bound. *)
Definition CreateUser_status (r : result User) : Z :=
  match r with
  | Ok _ => 200
  | Err err =>
      if error_is_sentinel err ErrUserAlreadyExists then 409 else 500
  end.

(** handlers.GetUser, after the id was parsed. *)
Definition GetUser_status (r : result User) : Z :=
  match r with
  | Ok _ => 200
  | Err err =>
      if error_is_sentinel err ErrUserNotFound then 404 else 500
  end.




(** ** Pagination *)

(** Go's [int] is 64 bits wide here. *)
Definition int_mul (a b : Z) : Z := Int64.wrap (a * b).

(** walletUseCase.GetTransactionHistory, up to the call of the
    repository: the limit and the offset it passes. *)
Definition GetTransactionHistory_window (page pageSize : Z) : Z * Z :=
  let page := if page <? 1 then 1 else page in
  let pageSize := if pageSize <? 1 then 10 else pageSize in
  let pageSize := if pageSize >? 100 then 100 else pageSize in
  let offset := int_mul (Int64.sub page 1) pageSize in
  (pageSize, offset).

(** paginatedResponse: the number of pages.  The division of Go
    truncates, and panics on a divisor 0 ([None]). *)
Definition totalPages (total pageSize : Z) : option Z :=
  if pageSize =? 0 then None
  else Some (Int64.wrap (Z.quot (Int64.sub (Int64.add total pageSize) 1) pageSize)).

(** ** package config *)

Record DatabaseConfig := mkDatabaseConfig {
  Db_Host : string;
  Db_Port : string;
  Db_User : string;
  Db_Password : string;
  Db_Name : string
}.

Record ServerConfig := mkServerConfig {
  Server_Host : string;
  Server_Port : string
}.

Record AppConfig := mkAppConfig {
  Env : string;
  JWTSecret : string;
  DefaultPageSize : Z;
  MaxPageSize : Z
}.

Record Config := mkConfig {
  Database : DatabaseConfig;
  Server : ServerConfig;
  App : AppConfig
}.

Section Config.

(** [os.Getenv], after [godotenv.Load] has had its turn: the value of a
    variable, empty when it is not set.  [Atoi] is [strconv.Atoi]. *)
Context (Getenv : string -> string) (Atoi : string -> result Z).

(** getEnv *)
Definition getEnv (key fallback : string) : string :=
  let value := Getenv key in
  if negb (String.eqb value "") then value else fallback.

Definition page_size_setting (key : string) (default : Z) : Z :=
  let val := Getenv key in
  if negb (String.eqb val "")
  then match Atoi val with
       | Ok parsed => parsed
       | Err _ => default
       end
  else default.

(** config.Load *)
Definition Load : result Config :=
  let defaultPageSize := page_size_setting "DEFAULT_PAGE_SIZE" 10 in
  let maxPageSize := page_size_setting "MAX_PAGE_SIZE" 100 in
  let config :=
    mkConfig
      (mkDatabaseConfig (getEnv "DB_HOST" "localhost")
                        (getEnv "DB_PORT" "3306")
                        (getEnv "DB_USER" "root")
                        (getEnv "DB_PASSWORD" "")
                        (getEnv "DB_NAME" "wallet_service"))
      (mkServerConfig (getEnv "SERVER_HOST" "localhost")
                      (getEnv "SERVER_PORT" "8080"))
      (mkAppConfig (getEnv "APP_ENV" "development")
                   (getEnv "JWT_SECRET" "default_secret")
                   defaultPageSize maxPageSize) in
  if String.eqb (Db_Name (Database config)) ""
  then Err (Errorf "database name is required" None)
  else Ok config.

End Config.

(** Config.GetServerAddress *)
Definition GetServerAddress (c : Config) : string :=
  String.append (Server_Host (Server c))
                (String.append ":" (Server_Port (Server c))).

(** An environment that sets only the name of the database. *)
Definition test_env (key : string) : string :=
  if String.eqb key "DB_NAME" then "wallet_service_test" else "".

(** The four properties of the ledger that hold whatever the amounts. *)
Definition ledger_invariant (s : Store) : Prop :=
  entries_completed s /\ references_unique s
  /\ every_user_has_a_wallet s /\ entries_name_users s.

(** What an entry adds to the sum of an account. *)
Definition contribution (userID : uuid) (t : Transaction) : Z :=
  if sum_where userID t then sum_case userID t else 0.

(** The three facts that are kept together. *)
Definition books_balance (s : Store) : Prop :=
  solvent s /\ reconciled s /\ ledger_invariant s.

(** ** More worlds of the examples *)

(** The operations of the integration test, from the first. *)
Definition flow : list operation :=
  [createAccount "John Doe" "john@example.com";
   createAccount "Jane Smith" "jane@example.com";
   fund john 10000 "fund_001";
   withdraw john 2000 "withdraw_001";
   transfer john jane 3000 "transfer_001"].

(** John and his wallet right after they were created. *)
Definition john_new_wallet : Wallet := mkWallet 2%N john 0.
Definition john_new : User :=
  mkUser john "John Doe" "john@example.com" (Some john_new_wallet).

(** A third user, as CreateUser returns her after John and Jane. *)
Definition ann : User :=
  mkUser 5%N "Ann Lee" "ann@example.com" (Some (mkWallet 6%N 5%N 0)).

(** ** Commits in a run *)

(** A commit that went through. *)
Definition commit_succeeded (ev : event) : bool :=
  match ev with
  | Issued c x =>
      match c in call X return X -> bool with
      | Commit => fun x => match x with Ok _ => true | Err _ => false end
      | _ => fun _ => false
      end x
  end.

(** The repositories over gorm, on a base connection that has stopped
    answering the lookups of users by id. *)
Definition losing_reads (X : Type) (c : call X) : World -> X * World :=
  match c in call X return (call X -> World -> X * World) with
  | User_GetByID BaseDB _ =>
      fun _ w => (Err (Errorf "invalid connection" None), w)
  | _ => fun c w => gorm _ c w
  end c.

(** * Properties *)

(** ** The scenario of the integration test *)

Example flow_balances :
  map (fun w => (Wallet_UserID w, Balance w)) (wallets (committed after_flow))
  = [(john, 5000); (jane, 3000)].
Proof. vm_compute. reflexivity. Qed.

Example flow_reconciles :
  fst (run RunReconciliation after_flow)
  = Ok [mkReconciliationResult john 5000 5000 0 false;
        mkReconciliationResult jane 3000 3000 0 false].
Proof. vm_compute. reflexivity. Qed.

(** ** The tables *)

Section TableFacts.

Context {R : Type} (pk : R -> uuid).

Lemma min_by_In (rows : list R) (r : R) :
  min_by pk rows = Some r -> In r rows.
Proof.
  revert r; induction rows as [|x rows IH]; simpl; intros r H.
  - discriminate.
  - destruct (min_by pk rows) as [m|].
    + destruct (pk x <=? pk m)%N; inversion H; subst; auto.
    + inversion H; auto.
Qed.

Lemma min_by_None (rows : list R) :
  min_by pk rows = None -> rows = [].
Proof.
  destruct rows as [|x rows]; simpl; auto.
  destruct (min_by pk rows) as [m|]; [destruct (pk x <=? pk m)%N|]; discriminate.
Qed.

Lemma First_Ok (cond : R -> bool) (tbl : list R) (r : R) :
  First pk cond tbl = Ok r -> In r tbl /\ cond r = true.
Proof.
  unfold First. destruct (min_by pk (filter cond tbl)) as [m|] eqn:E; [|discriminate].
  intros H; inversion H; subst. apply min_by_In in E. now apply filter_In in E.
Qed.

Lemma First_Err (cond : R -> bool) (tbl : list R) (e : error) :
  First pk cond tbl = Err e ->
  e = ErrRecordNotFound /\ forall r, In r tbl -> cond r = false.
Proof.
  unfold First. destruct (min_by pk (filter cond tbl)) as [m|] eqn:E; [discriminate|].
  intros H; inversion H; subst. split; [reflexivity|].
  apply min_by_None in E. intros r Hr.
  destruct (cond r) eqn:C; [|reflexivity].
  assert (In r (filter cond tbl)) as Hin by (apply filter_In; auto).
  rewrite E in Hin. destruct Hin.
Qed.

Lemma First_found (cond : R -> bool) (tbl : list R) (r : R) :
  In r tbl -> cond r = true -> exists r', First pk cond tbl = Ok r'.
Proof.
  intros Hin Hc. destruct (First pk cond tbl) as [r'|e] eqn:E; [eauto|].
  apply First_Err in E. destruct E as [_ E]. rewrite (E r Hin) in Hc. discriminate.
Qed.

Lemma First_absent (cond : R -> bool) (tbl : list R) :
  (forall r, In r tbl -> cond r = false) ->
  First pk cond tbl = Err ErrRecordNotFound.
Proof.
  intros H. destruct (First pk cond tbl) as [r|e] eqn:E.
  - apply First_Ok in E. destruct E as [Hin Hc]. rewrite (H r Hin) in Hc. discriminate.
  - apply First_Err in E. destruct E as [-> _]. reflexivity.
Qed.

(** An update that keeps the key and the condition of every row
    commutes with [First]. *)
Lemma min_by_map (f : R -> R) (rows : list R) :
  (forall r, pk (f r) = pk r) ->
  min_by pk (map f rows) = option_map f (min_by pk rows).
Proof.
  intros Hpk. induction rows as [|x rows IH]; simpl; [reflexivity|].
  rewrite IH. destruct (min_by pk rows) as [m|]; simpl; [|reflexivity].
  rewrite !Hpk. destruct (pk x <=? pk m)%N; reflexivity.
Qed.

Lemma filter_map_keep (f : R -> R) (cond : R -> bool) (rows : list R) :
  (forall r, cond (f r) = cond r) ->
  filter cond (map f rows) = map f (filter cond rows).
Proof.
  intros Hc. induction rows as [|x rows IH]; simpl; [reflexivity|].
  rewrite Hc, IH. destruct (cond x); reflexivity.
Qed.

Lemma First_map (f : R -> R) (cond : R -> bool) (tbl : list R) :
  (forall r, pk (f r) = pk r) ->
  (forall r, cond (f r) = cond r) ->
  First pk cond (map f tbl)
  = match First pk cond tbl with Ok r => Ok (f r) | Err e => Err e end.
Proof.
  intros Hpk Hc. unfold First.
  rewrite filter_map_keep by assumption. rewrite min_by_map by assumption.
  destruct (min_by pk (filter cond tbl)); reflexivity.
Qed.

End TableFacts.

Lemma errors_Is_not_found : errors_Is ErrRecordNotFound ErrRecordNotFound = true.
Proof. reflexivity. Qed.

(** An entry with the reference exists exactly when the lookup finds one. *)
Lemma GetByReference_found (s : Store) (reference : string) (t : Transaction) :
  In t (transactions s) -> Reference t = reference ->
  exists existing,
    transactions_GetByReference s reference = Ok existing
    /\ In existing (transactions s) /\ Reference existing = reference.
Proof.
  intros Hin Href. unfold transactions_GetByReference.
  destruct (First_found ID (fun t => String.eqb (Reference t) reference)
                        (transactions s) t Hin) as [x Hx].
  - now apply String.eqb_eq.
  - exists x. split; [assumption|]. apply First_Ok in Hx. destruct Hx as [H1 H2].
    apply String.eqb_eq in H2. auto.
Qed.

Lemma GetByReference_fresh (s : Store) (reference : string) :
  (forall t, In t (transactions s) -> Reference t <> reference) ->
  transactions_GetByReference s reference = Err ErrRecordNotFound.
Proof.
  intros H. apply First_absent. intros r Hr.
  apply String.eqb_neq. now apply H.
Qed.

Lemma GetByID_missing (s : Store) (id : uuid) :
  (forall u, In u (users s) -> User_ID u <> id) ->
  users_GetByID s id = Err ErrRecordNotFound.
Proof.
  intros H. unfold users_GetByID.
  rewrite First_absent; [reflexivity|].
  intros r Hr. apply N.eqb_neq. now apply H.
Qed.

Arguments transactions_GetByReference : simpl never.
Arguments users_GetByID : simpl never.
Arguments users_GetByEmail : simpl never.
Arguments wallets_GetByUserID : simpl never.
Arguments transactions_GetUserTransactionSum : simpl never.
Arguments Int64.add : simpl never.
Arguments Int64.sub : simpl never.

(** In a world without concurrent callers a round trip changes nothing. *)
Ltac alone w H :=
  let s := fresh "s" in
  let o := fresh "o" in
  destruct w as [s ? o ? ? ?]; simpl in H; subst o.

(** ** The idempotency guard *)

(** C1.  A fund, withdraw or transfer whose reference already has an
    entry returns that entry as it is stored and leaves everything as it
    was (no balance is written, no entry is added), whatever the owner,
    the amount and the kind of the new request. *)
Theorem duplicate_reference_short_circuits :
  forall (w : World) (userID toUserID : uuid) (amount : Z) (reference : string)
         (t : Transaction),
    others w = [] ->
    0 < amount ->
    In t (transactions (committed w)) ->
    Reference t = reference ->
    exists existing,
      In existing (transactions (committed w))
      /\ Reference existing = reference
      /\ run (FundWallet userID amount reference) w = (Ok existing, w)
      /\ run (WithdrawFunds userID amount reference) w = (Ok existing, w)
      /\ (userID <> toUserID ->
          run (TransferFunds userID toUserID amount reference) w = (Ok existing, w)).
Proof.
  intros w userID toUserID amount reference t Hq Hpos Hin Href.
  destruct (GetByReference_found _ _ _ Hin Href) as [existing [Hget [Hin' Href']]].
  exists existing. split; [assumption|]. split; [assumption|].
  alone w Hq. simpl in Hget.
  assert ((amount <=? 0) = false) as Hamt by (apply Z.leb_gt; lia).
  unfold run, FundWallet, WithdrawFunds, TransferFunds. rewrite Hamt.
  repeat split.
  - cbn. rewrite Hget. reflexivity.
  - cbn. rewrite Hget. reflexivity.
  - intros Hne. apply N.eqb_neq in Hne. rewrite Hne. cbn. rewrite Hget. reflexivity.
Qed.

Lemma duplicate_reference_short_circuits_witness :
  exists existing,
    In existing (transactions (committed after_flow))
    /\ Reference existing = "fund_001"
    /\ run (FundWallet jane 1 "fund_001") after_flow = (Ok existing, after_flow)
    /\ run (WithdrawFunds jane 1 "fund_001") after_flow = (Ok existing, after_flow)
    /\ (jane <> john ->
        run (TransferFunds jane john 1 "fund_001") after_flow = (Ok existing, after_flow)).
Proof.
  apply (duplicate_reference_short_circuits after_flow jane john 1 "fund_001" fund_001).
  - reflexivity.
  - lia.
  - vm_compute. left. reflexivity.
  - reflexivity.
Defined.

(** C9.  In fund and withdraw the lookup by reference comes before the
    check that the owner exists: with a reference that already has an
    entry and an owner id that names no user, the only call issued is the
    lookup, and the call returns the stored entry, not ErrUserNotFound. *)
Theorem replay_precedes_owner_check :
  forall (w : World) (userID : uuid) (amount : Z) (reference : string)
         (t : Transaction),
    others w = [] ->
    0 < amount ->
    In t (transactions (committed w)) ->
    Reference t = reference ->
    users_GetByID (committed w) userID = Err ErrRecordNotFound ->
    exists existing,
      In existing (transactions (committed w))
      /\ Reference existing = reference
      /\ run (FundWallet userID amount reference) w = (Ok existing, w)
      /\ trace gorm (FundWallet userID amount reference) w
         = [Issued (Transaction_GetByReference BaseDB reference) (Ok existing)]
      /\ run (WithdrawFunds userID amount reference) w = (Ok existing, w)
      /\ trace gorm (WithdrawFunds userID amount reference) w
         = [Issued (Transaction_GetByReference BaseDB reference) (Ok existing)].
Proof.
  intros w userID amount reference t Hq Hpos Hin Href _.
  destruct (GetByReference_found _ _ _ Hin Href) as [existing [Hget [Hin' Href']]].
  exists existing. split; [assumption|]. split; [assumption|].
  alone w Hq. simpl in Hget.
  assert ((amount <=? 0) = false) as Hamt by (apply Z.leb_gt; lia).
  unfold run, FundWallet, WithdrawFunds. rewrite Hamt.
  repeat split; cbn; rewrite Hget; reflexivity.
Qed.

Lemma replay_precedes_owner_check_witness :
  exists existing,
    In existing (transactions (committed after_flow))
    /\ Reference existing = "fund_001"
    /\ run (FundWallet nobody 1 "fund_001") after_flow = (Ok existing, after_flow)
    /\ trace gorm (FundWallet nobody 1 "fund_001") after_flow
       = [Issued (Transaction_GetByReference BaseDB "fund_001") (Ok existing)]
    /\ run (WithdrawFunds nobody 1 "fund_001") after_flow = (Ok existing, after_flow)
    /\ trace gorm (WithdrawFunds nobody 1 "fund_001") after_flow
       = [Issued (Transaction_GetByReference BaseDB "fund_001") (Ok existing)].
Proof.
  apply (replay_precedes_owner_check after_flow nobody 1 "fund_001" fund_001).
  - reflexivity.
  - lia.
  - vm_compute. left. reflexivity.
  - reflexivity.
  - vm_compute. reflexivity.
Defined.

(** ** Owners that do not exist *)

(** Fund and withdraw with a fresh reference and an owner id that names
    no user fail with ErrUserNotFound and change nothing. *)
Lemma fund_withdraw_missing_owner :
  forall (w : World) (userID : uuid) (amount : Z) (reference : string),
    others w = [] ->
    0 < amount ->
    transactions_GetByReference (committed w) reference = Err ErrRecordNotFound ->
    users_GetByID (committed w) userID = Err ErrRecordNotFound ->
    run (FundWallet userID amount reference) w = (Err ErrUserNotFound, w)
    /\ run (WithdrawFunds userID amount reference) w = (Err ErrUserNotFound, w).
Proof.
  intros w userID amount reference Hq Hpos Hget Huser.
  alone w Hq. simpl in Hget, Huser.
  assert ((amount <=? 0) = false) as Hamt by (apply Z.leb_gt; lia).
  unfold run, FundWallet, WithdrawFunds. rewrite Hamt.
  split; cbn; rewrite Hget; cbn; rewrite Huser; reflexivity.
Qed.

(** C7.  A transfer with a fresh reference whose source, or whose
    destination, names no user fails with an error made on the spot
    ("sender not found", "recipient not found"): it is not
    ErrUserNotFound, the error fund and withdraw return and the one the
    caller of the transfer compares with. *)
Theorem transfer_missing_owner_is_untyped :
  forall (w : World) (fromUserID toUserID : uuid) (amount : Z) (reference : string),
    others w = [] ->
    0 < amount ->
    fromUserID <> toUserID ->
    transactions_GetByReference (committed w) reference = Err ErrRecordNotFound ->
    (users_GetByID (committed w) fromUserID = Err ErrRecordNotFound ->
     run (TransferFunds fromUserID toUserID amount reference) w
     = (Err (Errorf "sender not found" None), w))
    /\ (forall fromUser,
           users_GetByID (committed w) fromUserID = Ok fromUser ->
           users_GetByID (committed w) toUserID = Err ErrRecordNotFound ->
           run (TransferFunds fromUserID toUserID amount reference) w
           = (Err (Errorf "recipient not found" None), w))
    /\ error_is_sentinel (Errorf "sender not found" None) ErrUserNotFound = false
    /\ error_is_sentinel (Errorf "recipient not found" None) ErrUserNotFound = false.
Proof.
  intros w fromUserID toUserID amount reference Hq Hpos Hne Hget.
  alone w Hq. simpl in Hget.
  assert ((amount <=? 0) = false) as Hamt by (apply Z.leb_gt; lia).
  apply N.eqb_neq in Hne.
  unfold run, TransferFunds. rewrite Hamt, Hne.
  repeat split.
  - simpl committed. intros Hfrom. cbn. rewrite Hget. cbn. rewrite Hfrom. reflexivity.
  - simpl committed. intros fromUser Hfrom Hto.
    cbn. rewrite Hget. cbn. rewrite Hfrom. cbn. rewrite Hto. reflexivity.
Qed.

Lemma transfer_missing_owner_is_untyped_witness :
  (users_GetByID (committed after_flow) nobody = Err ErrRecordNotFound ->
   run (TransferFunds nobody jane 100 "t1") after_flow
   = (Err (Errorf "sender not found" None), after_flow))
  /\ (forall fromUser,
         users_GetByID (committed after_flow) nobody = Ok fromUser ->
         users_GetByID (committed after_flow) jane = Err ErrRecordNotFound ->
         run (TransferFunds nobody jane 100 "t1") after_flow
         = (Err (Errorf "recipient not found" None), after_flow))
  /\ error_is_sentinel (Errorf "sender not found" None) ErrUserNotFound = false
  /\ error_is_sentinel (Errorf "recipient not found" None) ErrUserNotFound = false.
Proof.
  apply (transfer_missing_owner_is_untyped after_flow nobody jane 100 "t1").
  - reflexivity.
  - lia.
  - discriminate.
  - vm_compute. reflexivity.
Defined.

Example transfer_from_nobody :
  fst (run (TransferFunds nobody jane 100 "t1") after_flow)
  = Err (Errorf "sender not found" None).
Proof. vm_compute. reflexivity. Qed.

Example transfer_to_nobody :
  fst (run (TransferFunds john nobody 100 "t1") after_flow)
  = Err (Errorf "recipient not found" None).
Proof. vm_compute. reflexivity. Qed.

Example fund_nobody :
  fst (run (FundWallet nobody 100 "t1") after_flow) = Err ErrUserNotFound.
Proof. vm_compute. reflexivity. Qed.

(** ** Insufficient funds *)

(** C4.  A withdraw, and a transfer, of more than the balance of the
    (source) wallet fails with ErrInsufficientFunds; the unit of work is
    rolled back and the committed store (every balance, the entries) is
    what it was. *)
Theorem insufficient_funds_changes_nothing :
  forall (w : World) (userID toUserID : uuid) (amount : Z) (reference : string)
         (user : User) (wallet : Wallet),
    others w = [] ->
    0 < amount ->
    transactions_GetByReference (committed w) reference = Err ErrRecordNotFound ->
    users_GetByID (committed w) userID = Ok user ->
    wallets_GetByUserID (committed w) userID = Ok wallet ->
    Balance wallet < amount ->
    (exists w',
        run (WithdrawFunds userID amount reference) w = (Err ErrInsufficientFunds, w')
        /\ committed w' = committed w /\ tx w' = None)
    /\ (forall toUser,
           userID <> toUserID ->
           users_GetByID (committed w) toUserID = Ok toUser ->
           exists w',
             run (TransferFunds userID toUserID amount reference) w
             = (Err ErrInsufficientFunds, w')
             /\ committed w' = committed w /\ tx w' = None).
Proof.
  intros w userID toUserID amount reference user wallet Hq Hpos Hget Huser Hwal Hlt.
  alone w Hq. simpl in Hget, Huser, Hwal.
  assert ((amount <=? 0) = false) as Hamt by (apply Z.leb_gt; lia).
  apply Z.ltb_lt in Hlt.
  unfold run, WithdrawFunds, TransferFunds. rewrite Hamt.
  split.
  - cbn. rewrite Hget. cbn. rewrite Huser. cbn. rewrite Hwal. cbn. rewrite Hlt. cbn.
    eexists. split; [reflexivity|]. split; reflexivity.
  - simpl committed. intros toUser Hne Hto. apply N.eqb_neq in Hne. rewrite Hne.
    cbn. rewrite Hget. cbn. rewrite Huser. cbn. rewrite Hto. cbn.
    rewrite Hwal. cbn. rewrite Hlt. cbn.
    eexists. split; [reflexivity|]. split; reflexivity.
Qed.

Lemma insufficient_funds_changes_nothing_witness :
  (exists w',
      run (WithdrawFunds john 6000 "w2") after_flow = (Err ErrInsufficientFunds, w')
      /\ committed w' = committed after_flow /\ tx w' = None)
  /\ (forall toUser,
         john <> jane ->
         users_GetByID (committed after_flow) jane = Ok toUser ->
         exists w',
           run (TransferFunds john jane 6000 "w2") after_flow
           = (Err ErrInsufficientFunds, w')
           /\ committed w' = committed after_flow /\ tx w' = None).
Proof.
  apply (insufficient_funds_changes_nothing after_flow john jane 6000 "w2"
                                            john_user john_wallet).
  - reflexivity.
  - lia.
  - vm_compute. reflexivity.
  - vm_compute. reflexivity.
  - vm_compute. reflexivity.
  - simpl. lia.
Defined.

(** ** What a run does, whatever the store answers *)

(** Follows a program along every answer the handler may give. *)
Ltac explore h :=
  repeat (cbn;
          match goal with
          | |- context [h ?X ?c ?w] =>
              let x := fresh "x" in
              destruct (h X c w) as [x ?]; destruct x
          | |- context [if ?b then _ else _] => destruct b
          end).

Section AnyHandler.

Context {W : Type} (h : forall X, call X -> W -> X * W).




End AnyHandler.

(** ** A concurrent caller with the same reference *)




(** ** The order in which a transfer reaches the two wallets *)

Example accesses_john_to_jane :
  wallet_accesses (trace gorm (TransferFunds john jane 100 "t9") after_flow)
  = [ReadWallet TxDB john; ReadWallet TxDB jane;
     WriteWallet TxDB john; WriteWallet TxDB jane].
Proof. vm_compute. reflexivity. Qed.

Example accesses_jane_to_john :
  wallet_accesses (trace gorm (TransferFunds jane john 100 "t9") after_flow)
  = [ReadWallet TxDB jane; ReadWallet TxDB john;
     WriteWallet TxDB jane; WriteWallet TxDB john].
Proof. vm_compute. reflexivity. Qed.

(** C6, as stated, fails: John's transfer to Jane reaches John's wallet
    first, Jane's transfer to John reaches Jane's first. *)
Lemma access_order_follows_the_caller :
  ~ fixed_access_order.
Proof.
  intros [before [Hasym H]].
  assert (before john jane = true) as H1.
  { apply (H after_flow john jane 100 "t9" john jane [john; jane]).
    rewrite accesses_john_to_jane. reflexivity. }
  assert (before jane john = true) as H2.
  { apply (H after_flow jane john 100 "t9" jane john [jane; john]).
    rewrite accesses_jane_to_john. reflexivity. }
  apply Hasym in H1. congruence.
Qed.

(** C6, amended.  Whatever the store answers, a transfer reaches the
    wallets in the order of its arguments: it reads the source wallet,
    then the destination wallet, then writes the source, then the
    destination, all on the connection of its unit of work and with plain
    reads and writes; a run that stops early has done a prefix of this,
    and a run that commits has done all of it. *)
Theorem transfer_accesses_source_then_destination :
  forall (W : Type) (h : forall X, call X -> W -> X * W) (w : W)
         (fromUserID toUserID : uuid) (amount : Z) (reference : string),
    (exists n,
        wallet_accesses
          (trace h (TransferFunds fromUserID toUserID amount reference) w)
        = firstn n [ReadWallet TxDB fromUserID; ReadWallet TxDB toUserID;
                    WriteWallet TxDB fromUserID; WriteWallet TxDB toUserID])
    /\ (existsb is_commit
                (trace h (TransferFunds fromUserID toUserID amount reference) w)
        = true ->
        wallet_accesses
          (trace h (TransferFunds fromUserID toUserID amount reference) w)
        = [ReadWallet TxDB fromUserID; ReadWallet TxDB toUserID;
           WriteWallet TxDB fromUserID; WriteWallet TxDB toUserID]).
Proof.
  intros W h w fromUserID toUserID amount reference.
  unfold TransferFunds. explore h;
    (split;
     [ first [ exists 0%nat; reflexivity | exists 1%nat; reflexivity
             | exists 2%nat; reflexivity | exists 3%nat; reflexivity
             | exists 4%nat; reflexivity ]
     | intros Hc; first [ discriminate Hc | reflexivity ] ]).
Qed.

Lemma transfer_accesses_source_then_destination_witness :
  wallet_accesses (trace gorm (TransferFunds jane john 100 "t9") after_flow)
  = [ReadWallet TxDB jane; ReadWallet TxDB john;
     WriteWallet TxDB jane; WriteWallet TxDB john].
Proof.
  apply (transfer_accesses_source_then_destination World gorm after_flow
           jane john 100 "t9").
  vm_compute. reflexivity.
Defined.

(** ** Reconciliation *)

Section ExecFacts.

Context {W : Type} (h : forall X, call X -> W -> X * W).

Lemma exec_bind {A B} (p : prog A) (f : A -> prog B) (w : W) :
  exec h (bind p f) w = let (a, w') := exec h p w in exec h (f a) w'.
Proof.
  revert w. induction p as [a|X c k IH]; intros w; simpl.
  - reflexivity.
  - destruct (h X c w) as [x w']. apply IH.
Qed.

(** Every result of the loop is made by the body of the loop. *)
Lemma reconcile_loop_Forall (P : ReconciliationResult -> Prop) :
  (forall wallet calculatedBalance, P (reconcile_wallet wallet calculatedBalance)) ->
  forall wallets results w,
    Forall P results ->
    Forall P (fst (exec h (reconcile_loop wallets results) w)).
Proof.
  intros HP wallets. induction wallets as [|wallet rest IH]; intros results w Hres.
  - exact Hres.
  - simpl.
    destruct (h _ (Transaction_GetUserTransactionSum BaseDB (Wallet_UserID wallet)) w)
      as [[c|e] w1].
    + assert (Forall P (results ++ [reconcile_wallet wallet c])) as Hres'.
      { apply Forall_app. split; [assumption|]. constructor; [apply HP|constructor]. }
      destruct (negb _).
      * simpl. destruct (h _ _ w1) as [[] w2]. now apply IH.
      * now apply IH.
    + simpl. destruct (h _ _ w1) as [[] w2]. now apply IH.
Qed.

Lemma RunReconciliation_Forall (P : ReconciliationResult -> Prop) :
  (forall wallet calculatedBalance, P (reconcile_wallet wallet calculatedBalance)) ->
  forall w results,
    fst (exec h RunReconciliation w) = Ok results ->
    Forall P results.
Proof.
  intros HP w results. unfold RunReconciliation. simpl.
  destruct (h _ (log_Print LogStarting) w) as [[] w1].
  destruct (h _ (Wallet_GetAllWallets BaseDB) w1) as [[wallets|e] w2].
  - rewrite exec_bind.
    pose proof (reconcile_loop_Forall P HP wallets [] w2 (Forall_nil P)) as HF.
    destruct (exec h (reconcile_loop wallets []) w2) as [rs w3]. simpl in *.
    destruct (h _ _ w3) as [[] w4]. simpl.
    intros H; inversion H; subst. exact HF.
  - simpl. discriminate.
Qed.

End ExecFacts.

(** With canned answers the loop appends [results_for]. *)
Lemma reconcile_loop_mocked (m : Mock) :
  forall wallets results l,
    fst (exec (mocked m) (reconcile_loop wallets results) l)
    = results ++ results_for (mock_GetUserTransactionSum m) wallets.
Proof.
  intros wallets. induction wallets as [|wallet rest IH]; intros results l.
  - simpl. now rewrite app_nil_r.
  - cbn [reconcile_loop exec mocked]. unfold results_for. cbn [flat_map].
    fold (results_for (mock_GetUserTransactionSum m) rest).
    destruct (mock_GetUserTransactionSum m (Wallet_UserID wallet)) as [c|e].
    + destruct (HasMismatch (reconcile_wallet wallet c));
        cbn [exec mocked]; rewrite IH; now rewrite <- app_assoc.
    + cbn [exec mocked]. rewrite IH. reflexivity.
Qed.

(** In a world without concurrent callers the loop reads the sums of
    the committed store, and writes nothing but the log. *)
Lemma reconcile_loop_gorm :
  forall wallets results s t e d l,
    exists l',
      exec gorm (reconcile_loop wallets results) (mkWorld s t [] e d l)
      = (results ++ results_for (transactions_GetUserTransactionSum s) wallets,
         mkWorld s t [] e d l').
Proof.
  intros wallets. induction wallets as [|wallet rest IH]; intros results s t e d l.
  - exists l. simpl. now rewrite app_nil_r.
  - cbn [reconcile_loop exec]. unfold results_for. cbn [flat_map].
    fold (results_for (transactions_GetUserTransactionSum s) rest).
    cbn [gorm read tick others view committed].
    destruct (transactions_GetUserTransactionSum s (Wallet_UserID wallet)) as [c|err].
    + destruct (HasMismatch (reconcile_wallet wallet c)).
      * cbn [exec gorm]. cbn [committed tx others entropy drawn logs].
        destruct (IH (results ++ [reconcile_wallet wallet c]) s t e d
                     (l ++ [LogMismatch (Wallet_UserID wallet) (Balance wallet) c
                                        (Difference (reconcile_wallet wallet c))]))
          as [l' Hl']. exists l'. rewrite Hl'. now rewrite <- app_assoc.
      * destruct (IH (results ++ [reconcile_wallet wallet c]) s t e d l) as [l' Hl'].
        exists l'. rewrite Hl'. now rewrite <- app_assoc.
    + cbn [exec gorm]. cbn [committed tx others entropy drawn logs].
      destruct (IH results s t e d (l ++ [LogSumFailed (Wallet_UserID wallet) err]))
        as [l' Hl']. exists l'. rewrite Hl'. reflexivity.
Qed.

Lemma option_uuid_is_None (id : uuid) : option_uuid_is None id = false.
Proof. reflexivity. Qed.

(** The [CASE] and the [WHERE] of the query agree with the signed
    contribution on the entries of the data model. *)
Lemma sum_case_signed (account : uuid) (t : Transaction) :
  well_formed_entry t ->
  touches account t = true ->
  sum_case account t = signed_contribution account t.
Proof.
  unfold well_formed_entry, touches, sum_case, signed_contribution,
    is_source, is_destination.
  destruct (Type_ t); cbn [TransactionType_eqb andb].
  - reflexivity.
  - intros [-> ->]. cbn. rewrite !orb_false_r. intros ->. reflexivity.
  - intros [a [b [-> [-> Hab]]]] _. cbn.
    destruct (N.eqb_spec a account) as [->|Ha].
    + destruct (N.eqb_spec b account) as [->|Hb]; [congruence|]. lia.
    + destruct (N.eqb_spec b account); lia.
Qed.

Lemma sum_where_touches (account : uuid) (t : Transaction) :
  sum_where account t = is_completed t && touches account t.
Proof.
  unfold sum_where, is_completed, touches, is_source, is_destination.
  rewrite andb_comm. destruct (Status t); reflexivity.
Qed.

Lemma sum_query_derived (account : uuid) (entries : list Transaction) :
  Forall well_formed_entry entries ->
  sum_Z (map (sum_case account) (filter (sum_where account) entries))
  = derived_balance account entries.
Proof.
  unfold derived_balance. induction 1 as [|t entries Ht _ IH]; [reflexivity|].
  cbn [filter]. rewrite sum_where_touches.
  destruct (is_completed t && touches account t) eqn:E.
  - cbn [map sum_Z fold_right]. apply andb_prop in E. destruct E as [_ E].
    rewrite (sum_case_signed account t Ht E). f_equal. exact IH.
  - exact IH.
Qed.

Lemma GetUserTransactionSum_Ok (s : Store) (account : uuid) (c : Z) :
  Forall well_formed_entry (transactions s) ->
  transactions_GetUserTransactionSum s account = Ok c ->
  c = derived_balance account (transactions s) /\ Int64.in_range c.
Proof.
  intros Hwf. unfold transactions_GetUserTransactionSum.
  rewrite (sum_query_derived account _ Hwf).
  destruct (Int64.in_rangeb _) eqn:E; [|discriminate].
  intros H; inversion H; subst. split; [reflexivity|].
  unfold Int64.in_rangeb in E. apply andb_prop in E. destruct E as [E1 E2].
  apply Z.leb_le in E1. apply Z.leb_le in E2. split; assumption.
Qed.

(** The flag and the difference of one result. *)
Lemma Int64_wrap_id (z : Z) : Int64.in_range z -> Int64.wrap z = z.
Proof.
  unfold Int64.in_range, Int64.min_int, Int64.max_int, Int64.wrap. intros H.
  rewrite Z.mod_small; lia.
Qed.

Lemma Int64_sub_zero (a b : Z) :
  Int64.in_range a -> Int64.in_range b -> (Int64.sub a b = 0 <-> a = b).
Proof.
  unfold Int64.in_range, Int64.min_int, Int64.max_int, Int64.sub, Int64.wrap.
  intros Ha Hb. split.
  - intros H.
    assert ((a - b + 2 ^ 63) mod 2 ^ 64 = 2 ^ 63) as Hm by lia.
    destruct (Z_le_gt_dec (- 2 ^ 63) (a - b)) as [Hlo|Hlo].
    + destruct (Z_lt_le_dec (a - b) (2 ^ 63)) as [Hhi|Hhi].
      * rewrite Z.mod_small in Hm by lia. lia.
      * replace (a - b + 2 ^ 63) with ((a - b - 2 ^ 63) + 1 * 2 ^ 64) in Hm by lia.
        rewrite Z.mod_add in Hm by lia. rewrite Z.mod_small in Hm by lia. lia.
    + replace (a - b + 2 ^ 63) with ((a - b + 2 ^ 63 + 2 ^ 64) + (-1) * 2 ^ 64) in Hm by lia.
      rewrite Z.mod_add in Hm by lia. rewrite Z.mod_small in Hm by lia. lia.
  - intros ->. rewrite Z.sub_diag. reflexivity.
Qed.

Lemma reconcile_wallet_fields (wallet : Wallet) (calculatedBalance : Z) :
  let r := reconcile_wallet wallet calculatedBalance in
  Rec_UserID r = Wallet_UserID wallet
  /\ StoredBalance r = Balance wallet
  /\ CalculatedBalance r = calculatedBalance
  /\ Difference r = Int64.sub (StoredBalance r) (CalculatedBalance r)
  /\ (HasMismatch r = true <-> Difference r <> 0).
Proof.
  cbn. repeat split.
  - intros H. apply negb_true_iff in H. now apply Z.eqb_neq in H.
  - intros H. apply negb_true_iff. now apply Z.eqb_neq.
Qed.

(** A wallet whose sum fails is left out, and the wallets around it
    keep their results. *)
Lemma results_for_skips (sum : uuid -> result Z) (before after : list Wallet)
      (wallet : Wallet) (e : error) :
  sum (Wallet_UserID wallet) = Err e ->
  results_for sum (before ++ wallet :: after)
  = results_for sum before ++ results_for sum after.
Proof.
  intros H. unfold results_for. rewrite flat_map_app. cbn [flat_map]. now rewrite H.
Qed.

Lemma results_for_keeps (sum : uuid -> result Z) (before after : list Wallet)
      (wallet : Wallet) (c : Z) :
  sum (Wallet_UserID wallet) = Ok c ->
  results_for sum (before ++ wallet :: after)
  = results_for sum before ++ reconcile_wallet wallet c :: results_for sum after.
Proof.
  intros H. unfold results_for. rewrite flat_map_app. cbn [flat_map]. now rewrite H.
Qed.

Lemma RunReconciliation_mocked (m : Mock) (l : list logmsg) :
  fst (exec (mocked m) RunReconciliation l)
  = match mock_GetAllWallets m with
    | Ok ws => Ok (results_for (mock_GetUserTransactionSum m) ws)
    | Err e => Err (Errorf "failed to get wallets" (Some e))
    end.
Proof.
  unfold RunReconciliation. cbn [exec mocked].
  destruct (mock_GetAllWallets m) as [ws|e]; [|reflexivity].
  rewrite exec_bind.
  pose proof (reconcile_loop_mocked m ws [] (l ++ [LogStarting])) as H.
  destruct (exec (mocked m) (reconcile_loop ws []) (l ++ [LogStarting])) as [rs l'].
  simpl in H. subst rs. reflexivity.
Qed.

Lemma RunReconciliation_gorm (w : World) :
  others w = [] ->
  exists w',
    run RunReconciliation w
    = (Ok (results_for (transactions_GetUserTransactionSum (committed w))
                       (wallets (committed w))), w')
    /\ committed w' = committed w.
Proof.
  intros Hq. destruct w as [s t o e d l]. simpl in Hq. subst o.
  unfold run, RunReconciliation. cbn [exec gorm read tick others view committed].
  cbn [tx entropy drawn logs]. rewrite exec_bind.
  destruct (reconcile_loop_gorm (wallets s) [] s t e d (l ++ [LogStarting])) as [l' Hl'].
  rewrite Hl'. cbn. eexists. split; reflexivity.
Qed.

(** The int64 a wrap-around gives: within the range, and away from
    the exact result by a multiple of 2^64. *)
Lemma Int64_wrap_bounds (z : Z) : - 2 ^ 63 <= Int64.wrap z <= 2 ^ 63 - 1.
Proof.
  unfold Int64.wrap.
  pose proof (Z.mod_pos_bound (z + 2 ^ 63) (2 ^ 64) ltac:(lia)). lia.
Qed.

Lemma Int64_wrap_multiple (z : Z) : exists k, Int64.wrap z = z + k * 2 ^ 64.
Proof.
  unfold Int64.wrap. exists (- ((z + 2 ^ 63) / 2 ^ 64)).
  pose proof (Z.div_mod (z + 2 ^ 63) (2 ^ 64) ltac:(lia)). lia.
Qed.

(** The query returns the derived balance exactly when it fits an
    int64. *)
Lemma GetUserTransactionSum_derived (s : Store) (account : uuid) (c : Z) :
  Forall well_formed_entry (transactions s) ->
  (transactions_GetUserTransactionSum s account = Ok c
   <-> c = derived_balance account (transactions s)
       /\ - 2 ^ 63 <= c <= 2 ^ 63 - 1).
Proof.
  intros Hwf. split.
  - intros H. apply (GetUserTransactionSum_Ok _ _ _ Hwf) in H. exact H.
  - intros [-> Hr]. unfold transactions_GetUserTransactionSum.
    rewrite (sum_query_derived account _ Hwf).
    assert (Int64.in_rangeb (derived_balance account (transactions s)) = true) as E.
    { unfold Int64.in_rangeb, Int64.min_int, Int64.max_int.
      apply andb_true_intro. split; apply Z.leb_le; lia. }
    now rewrite E.
Qed.

(** What one result says of its wallet and of the sum it was given. *)
Lemma reconcile_wallet_compares (wallet : Wallet) (calculatedBalance : Z) :
  let r := reconcile_wallet wallet calculatedBalance in
  Rec_UserID r = Wallet_UserID wallet
  /\ StoredBalance r = Balance wallet
  /\ CalculatedBalance r = calculatedBalance
  /\ - 2 ^ 63 <= Difference r <= 2 ^ 63 - 1
  /\ (exists k, Difference r = Balance wallet - calculatedBalance + k * 2 ^ 64)
  /\ (- 2 ^ 63 <= Balance wallet - calculatedBalance <= 2 ^ 63 - 1 ->
      Difference r = Balance wallet - calculatedBalance)
  /\ (HasMismatch r = true <-> Difference r <> 0)
  /\ (- 2 ^ 63 <= Balance wallet <= 2 ^ 63 - 1 ->
      - 2 ^ 63 <= calculatedBalance <= 2 ^ 63 - 1 ->
      (HasMismatch r = true <-> Balance wallet <> calculatedBalance)).
Proof.
  cbv zeta.
  destruct (reconcile_wallet_fields wallet calculatedBalance)
    as [H1 [H2 [H3 [H4 H5]]]].
  split; [exact H1|]. split; [exact H2|]. split; [exact H3|].
  cbn [reconcile_wallet Difference HasMismatch StoredBalance CalculatedBalance] in *.
  split; [apply Int64_wrap_bounds|].
  split; [apply Int64_wrap_multiple|].
  split; [intros Hr; unfold Int64.sub; apply Int64_wrap_id; exact Hr|].
  split; [exact H5|].
  intros Hb Hc. rewrite H5.
  pose proof (Int64_sub_zero (Balance wallet) calculatedBalance Hb Hc) as Hz.
  tauto.
Qed.

Lemma In_results_for (sum : uuid -> result Z) (ws : list Wallet)
      (r : ReconciliationResult) :
  In r (results_for sum ws)
  <-> exists wallet calculatedBalance,
      In wallet ws
      /\ sum (Wallet_UserID wallet) = Ok calculatedBalance
      /\ r = reconcile_wallet wallet calculatedBalance.
Proof.
  unfold results_for. rewrite in_flat_map. split.
  - intros [wallet [Hin Hr]].
    destruct (sum (Wallet_UserID wallet)) as [c|e] eqn:E; [|destruct Hr].
    destruct Hr as [<-|[]]. exists wallet, c. auto.
  - intros [wallet [c [Hin [Hs ->]]]]. exists wallet. split; [exact Hin|].
    rewrite Hs. now left.
Qed.

(** C8.  Reconciliation.  The sum the query computes for an account is
    the sum, over the Completed entries that touch it, of +amount for a
    credit, -amount for a debit, -amount for a transfer out of it and
    +amount for a transfer into it, and the query returns it exactly
    when it fits an int64.  A run returns, for each wallet whose sum was
    computed and for no other, the stored balance, the sum, and their
    difference stored - sum (the plain difference when it fits an int64,
    and in any case an int64 that differs from it by a multiple of 2^64);
    the flag is set exactly when the difference is not zero, which is
    exactly when the stored balance and the sum differ.  A wallet whose
    sum fails is left out and the run goes on with the next one, and the
    run itself does not fail.  It writes nothing to the store. *)
Theorem reconcile_derives_compares_and_skips :
  forall (w : World) (m : Mock) (l : list logmsg) (account : uuid) (c : Z),
    others w = [] ->
    Forall well_formed_entry (transactions (committed w)) ->
    transactions_GetUserTransactionSum (committed w) account = Ok c ->
    c = derived_balance account (transactions (committed w))
    /\ (exists w',
           run RunReconciliation w
           = (Ok (results_for (transactions_GetUserTransactionSum (committed w))
                              (wallets (committed w))), w')
           /\ committed w' = committed w)
    /\ fst (exec (mocked m) RunReconciliation l)
       = match mock_GetAllWallets m with
         | Ok ws => Ok (results_for (mock_GetUserTransactionSum m) ws)
         | Err e => Err (Errorf "failed to get wallets" (Some e))
         end
    /\ (forall sum before after wallet e,
           sum (Wallet_UserID wallet) = Err e ->
           results_for sum (before ++ wallet :: after)
           = results_for sum before ++ results_for sum after)
    /\ (forall sum before after wallet calculatedBalance,
           sum (Wallet_UserID wallet) = Ok calculatedBalance ->
           results_for sum (before ++ wallet :: after)
           = results_for sum before
               ++ mkReconciliationResult
                    (Wallet_UserID wallet) (Balance wallet) calculatedBalance
                    (Int64.sub (Balance wallet) calculatedBalance)
                    (negb (Int64.sub (Balance wallet) calculatedBalance =? 0))
               :: results_for sum after)
    /\ (forall a d,
           transactions_GetUserTransactionSum (committed w) a = Ok d
           <-> d = derived_balance a (transactions (committed w))
               /\ - 2 ^ 63 <= d <= 2 ^ 63 - 1)
    /\ (forall sum ws r,
           In r (results_for sum ws) ->
           exists wallet,
             In wallet ws
             /\ sum (Wallet_UserID wallet) = Ok (CalculatedBalance r)
             /\ Rec_UserID r = Wallet_UserID wallet
             /\ StoredBalance r = Balance wallet
             /\ - 2 ^ 63 <= Difference r <= 2 ^ 63 - 1
             /\ (exists k,
                    Difference r
                    = StoredBalance r - CalculatedBalance r + k * 2 ^ 64)
             /\ (- 2 ^ 63 <= StoredBalance r - CalculatedBalance r <= 2 ^ 63 - 1 ->
                 Difference r = StoredBalance r - CalculatedBalance r)
             /\ (HasMismatch r = true <-> Difference r <> 0)
             /\ (- 2 ^ 63 <= StoredBalance r <= 2 ^ 63 - 1 ->
                 - 2 ^ 63 <= CalculatedBalance r <= 2 ^ 63 - 1 ->
                 (HasMismatch r = true <-> StoredBalance r <> CalculatedBalance r)))
    /\ (forall sum ws wallet calculatedBalance,
           In wallet ws ->
           sum (Wallet_UserID wallet) = Ok calculatedBalance ->
           exists r,
             In r (results_for sum ws)
             /\ Rec_UserID r = Wallet_UserID wallet
             /\ StoredBalance r = Balance wallet
             /\ CalculatedBalance r = calculatedBalance).
Proof.
  intros w m l account c Hq Hwf Hsum.
  split; [apply (GetUserTransactionSum_Ok _ _ _ Hwf Hsum)|].
  split; [apply RunReconciliation_gorm; assumption|].
  split; [apply RunReconciliation_mocked|].
  split; [intros; now apply results_for_skips with (e := e)|].
  split; [intros; now apply results_for_keeps|].
  split; [intros a d; now apply GetUserTransactionSum_derived|].
  split.
  - intros sum ws r Hin. apply In_results_for in Hin.
    destruct Hin as [wallet [calc [Hin [Hs ->]]]].
    destruct (reconcile_wallet_compares wallet calc)
      as [H1 [H2 [H3 [H4 [H5 [H6 [H7 H8]]]]]]].
    exists wallet. rewrite H2, H3.
    repeat (split; [assumption|]). exact H8.
  - intros sum ws wallet calc Hin Hs.
    exists (reconcile_wallet wallet calc). split.
    + apply In_results_for. exists wallet, calc. auto.
    + repeat split.
Qed.

Lemma reconcile_derives_compares_and_skips_witness :
  5000 = derived_balance john (transactions (committed drifted))
  /\ (transactions_GetUserTransactionSum (committed drifted) jane = Ok 3000
      <-> 3000 = derived_balance jane (transactions (committed drifted))
          /\ - 2 ^ 63 <= 3000 <= 2 ^ 63 - 1).
Proof.
  assert (others drifted = []) as H1 by reflexivity.
  assert (Forall well_formed_entry (transactions (committed drifted))) as H2.
  { vm_compute. repeat constructor. exists 1%N, 3%N. repeat split. discriminate. }
  assert (transactions_GetUserTransactionSum (committed drifted) john = Ok 5000) as H3
      by (vm_compute; reflexivity).
  destruct (reconcile_derives_compares_and_skips drifted failing_sums [] john 5000
              H1 H2 H3) as [Hc [_ [_ [_ [_ [Hd _]]]]]].
  split; [exact Hc|apply Hd].
Defined.

Example drifted_is_reported :
  fst (run RunReconciliation drifted)
  = Ok [mkReconciliationResult john 5100 5000 100 true;
        mkReconciliationResult jane 3000 3000 0 false].
Proof. vm_compute. reflexivity. Qed.

Example failing_sum_is_skipped :
  exec (mocked failing_sums) RunReconciliation []
  = (Ok [mkReconciliationResult jane 3000 2900 100 true],
     [LogStarting; LogSumFailed john ErrScanRange;
      LogMismatch jane 3000 2900 100; LogCompleted 1 1]).
Proof. vm_compute. reflexivity. Qed.

(** C10.  Every result of a reconciliation run, whatever the store
    answers, has Difference = StoredBalance - CalculatedBalance in int64
    arithmetic (the plain difference whenever that fits an int64, so
    positive when the stored balance is the larger), and its flag is set
    exactly when the difference is not zero. *)
Theorem result_difference_and_flag :
  forall (W : Type) (h : forall X, call X -> W -> X * W) (w : W)
         (results : list ReconciliationResult) (r : ReconciliationResult),
    fst (exec h RunReconciliation w) = Ok results ->
    In r results ->
    Difference r = Int64.sub (StoredBalance r) (CalculatedBalance r)
    /\ (Int64.in_range (StoredBalance r - CalculatedBalance r) ->
        Difference r = StoredBalance r - CalculatedBalance r)
    /\ (HasMismatch r = true <-> Difference r <> 0).
Proof.
  intros W h w results r Hrun Hin.
  pose proof (RunReconciliation_Forall h
                (fun r =>
                   Difference r = Int64.sub (StoredBalance r) (CalculatedBalance r)
                   /\ (Int64.in_range (StoredBalance r - CalculatedBalance r) ->
                       Difference r = StoredBalance r - CalculatedBalance r)
                   /\ (HasMismatch r = true <-> Difference r <> 0))) as HF.
  eapply Forall_forall in HF; [exact HF| |exact Hrun|exact Hin].
  intros wallet c.
  destruct (reconcile_wallet_fields wallet c) as [_ [_ [_ [Hd Hm]]]].
  split; [exact Hd|]. split; [|exact Hm].
  intros Hr. cbn. unfold Int64.sub. now apply Int64_wrap_id.
Qed.

Lemma result_difference_and_flag_witness :
  Difference (mkReconciliationResult john 5100 5000 100 true)
  = Int64.sub 5100 5000
  /\ (Int64.in_range (5100 - 5000) ->
      Difference (mkReconciliationResult john 5100 5000 100 true) = 5100 - 5000)
  /\ (HasMismatch (mkReconciliationResult john 5100 5000 100 true) = true
      <-> Difference (mkReconciliationResult john 5100 5000 100 true) <> 0).
Proof.
  apply (result_difference_and_flag World gorm drifted
           [mkReconciliationResult john 5100 5000 100 true;
            mkReconciliationResult jane 3000 3000 0 false]).
  - vm_compute. reflexivity.
  - left. reflexivity.
Defined.

(** ** Balances *)

Lemma GetByUserID_update (us : list User) (ws : list Wallet) (ts : list Transaction)
      (userID owner : uuid) (newBalance : Z) :
  wallets_GetByUserID (mkStore us (map (update_balance owner newBalance) ws) ts) userID
  = match wallets_GetByUserID (mkStore us ws ts) userID with
    | Ok wallet => Ok (update_balance owner newBalance wallet)
    | Err e => Err e
    end.
Proof.
  unfold wallets_GetByUserID. cbn [wallets]. apply First_map.
  - intros r. unfold update_balance. destruct (Wallet_UserID r =? owner)%N; reflexivity.
  - intros r. unfold update_balance. destruct (Wallet_UserID r =? owner)%N; reflexivity.
Qed.

Lemma GetByUserID_owner (s : Store) (userID : uuid) (wallet : Wallet) :
  wallets_GetByUserID s userID = Ok wallet -> Wallet_UserID wallet = userID.
Proof.
  unfold wallets_GetByUserID. intros H. apply First_Ok in H. destruct H as [_ H].
  now apply N.eqb_eq in H.
Qed.

Lemma balance_of_update (us : list User) (ws : list Wallet) (ts : list Transaction)
      (userID owner : uuid) (newBalance : Z) :
  balance_of (mkStore us (map (update_balance owner newBalance) ws) ts) userID
  = match balance_of (mkStore us ws ts) userID with
    | Some b => Some (if (userID =? owner)%N then newBalance else b)
    | None => None
    end.
Proof.
  unfold balance_of. rewrite GetByUserID_update.
  destruct (wallets_GetByUserID (mkStore us ws ts) userID) as [wallet|e] eqn:E;
    [|reflexivity].
  apply GetByUserID_owner in E. unfold update_balance. rewrite E.
  destruct (userID =? owner)%N; reflexivity.
Qed.

Lemma balance_of_transactions (us : list User) (ws : list Wallet)
      (ts ts' : list Transaction) (userID : uuid) :
  balance_of (mkStore us ws ts) userID = balance_of (mkStore us ws ts') userID.
Proof. reflexivity. Qed.

(** Follows a run over gorm along every answer of the store. *)
Ltac walk :=
  repeat (cbn;
          match goal with
          | |- context [match ?q with Ok _ => _ | Err _ => _ end] =>
              destruct q eqn:?
          | |- context [if ?b then _ else _] => destruct b eqn:?
          end).

(** What a transfer leaves in the store: either what was there, or one
    more entry and the two balances written from the two that were
    read. *)
Lemma TransferFunds_outcome :
  forall (w : World) (fromUserID toUserID : uuid) (amount : Z) (reference : string),
    others w = [] ->
    committed (snd (run (TransferFunds fromUserID toUserID amount reference) w))
    = committed w
    \/ exists fromWallet toWallet t,
        0 < amount
        /\ fromUserID <> toUserID
        /\ wallets_GetByUserID (committed w) fromUserID = Ok fromWallet
        /\ wallets_GetByUserID (committed w) toUserID = Ok toWallet
        /\ amount <= Balance fromWallet
        /\ committed (snd (run (TransferFunds fromUserID toUserID amount reference) w))
           = apply_writes
               [InsertTransaction t;
                UpdateBalance fromUserID (Int64.sub (Balance fromWallet) amount);
                UpdateBalance toUserID (Int64.add (Balance toWallet) amount)]
               (committed w).
Proof.
  intros w fromUserID toUserID amount reference Hq. alone w Hq.
  unfold run, TransferFunds.
  walk; try (left; reflexivity).
  right. do 3 eexists.
  repeat match goal with
         | H : (_ <=? _) = false |- _ => apply Z.leb_gt in H
         | H : (_ <? _) = false |- _ => apply Z.ltb_ge in H
         | H : (_ =? _)%N = false |- _ => apply N.eqb_neq in H
         end.
  repeat split; try eassumption; try reflexivity.
Qed.

Lemma FundWallet_outcome :
  forall (w : World) (userID : uuid) (amount : Z) (reference : string),
    others w = [] ->
    committed (snd (run (FundWallet userID amount reference) w)) = committed w
    \/ exists wallet t,
        0 < amount
        /\ wallets_GetByUserID (committed w) userID = Ok wallet
        /\ committed (snd (run (FundWallet userID amount reference) w))
           = apply_writes
               [InsertTransaction t;
                UpdateBalance userID (Int64.add (Balance wallet) amount)]
               (committed w).
Proof.
  intros w userID amount reference Hq. alone w Hq.
  unfold run, FundWallet.
  walk; try (left; reflexivity).
  right. do 2 eexists.
  repeat match goal with
         | H : (_ <=? _) = false |- _ => apply Z.leb_gt in H
         end.
  repeat split; try eassumption; try reflexivity.
Qed.

Lemma WithdrawFunds_outcome :
  forall (w : World) (userID : uuid) (amount : Z) (reference : string),
    others w = [] ->
    committed (snd (run (WithdrawFunds userID amount reference) w)) = committed w
    \/ exists wallet t,
        0 < amount
        /\ wallets_GetByUserID (committed w) userID = Ok wallet
        /\ amount <= Balance wallet
        /\ committed (snd (run (WithdrawFunds userID amount reference) w))
           = apply_writes
               [InsertTransaction t;
                UpdateBalance userID (Int64.sub (Balance wallet) amount)]
               (committed w).
Proof.
  intros w userID amount reference Hq. alone w Hq.
  unfold run, WithdrawFunds.
  walk; try (left; reflexivity).
  right. do 2 eexists.
  repeat match goal with
         | H : (_ <=? _) = false |- _ => apply Z.leb_gt in H
         | H : (_ <? _) = false |- _ => apply Z.ltb_ge in H
         end.
  repeat split; try eassumption; try reflexivity.
Qed.

Lemma CreateUser_outcome :
  forall (w : World) (name email : string),
    others w = [] ->
    committed (snd (run (CreateUser name email) w)) = committed w
    \/ exists user wallet,
        Balance wallet = 0
        /\ committed (snd (run (CreateUser name email) w))
           = apply_writes [InsertUser user; InsertWallet wallet] (committed w).
Proof.
  intros w name email Hq. alone w Hq.
  unfold run, CreateUser.
  walk; try (left; reflexivity).
  all: right; do 2 eexists; split; [|reflexivity]; reflexivity.
Qed.

(** No use case leaves a concurrent caller or an open unit of work
    behind. *)
Lemma run_stays_alone :
  forall (w : World),
    others w = [] ->
    (forall name email, others (snd (run (CreateUser name email) w)) = [])
    /\ (forall userID amount reference,
           others (snd (run (FundWallet userID amount reference) w)) = [])
    /\ (forall userID amount reference,
           others (snd (run (WithdrawFunds userID amount reference) w)) = [])
    /\ (forall fromUserID toUserID amount reference,
           others (snd (run (TransferFunds fromUserID toUserID amount reference) w)) = []).
Proof.
  intros w Hq. alone w Hq.
  repeat split; intros;
    unfold run, CreateUser, FundWallet, WithdrawFunds, TransferFunds;
    walk; reflexivity.
Qed.

(** *** Balances that are not negative and fit an int64 *)

Lemma Int64_add_fits (a b : Z) :
  Int64.min_int <= a + b <= Int64.max_int -> Int64.add a b = a + b.
Proof. intros H. unfold Int64.add. now apply Int64_wrap_id. Qed.

Lemma Int64_sub_fits (a b : Z) :
  Int64.min_int <= a - b <= Int64.max_int -> Int64.sub a b = a - b.
Proof. intros H. unfold Int64.sub. now apply Int64_wrap_id. Qed.

Lemma solvent_found (s : Store) (userID : uuid) (wallet : Wallet) :
  solvent s ->
  wallets_GetByUserID s userID = Ok wallet ->
  0 <= Balance wallet <= Int64.max_int.
Proof.
  intros Hs H. unfold wallets_GetByUserID in H. apply First_Ok in H.
  destruct H as [Hin _]. unfold solvent in Hs.
  rewrite Forall_forall in Hs. now apply Hs.
Qed.

Lemma solvent_update (us : list User) (ws : list Wallet) (ts ts' : list Transaction)
      (userID : uuid) (newBalance : Z) :
  solvent (mkStore us ws ts) ->
  0 <= newBalance <= Int64.max_int ->
  solvent (mkStore us (map (update_balance userID newBalance) ws) ts').
Proof.
  unfold solvent. cbn [wallets]. intros Hs Hb.
  apply Forall_map. eapply Forall_impl; [|exact Hs].
  intros wallet Hw. unfold update_balance.
  destruct (Wallet_UserID wallet =? userID)%N; [exact Hb|exact Hw].
Qed.

Lemma min_int_negative : Int64.min_int < 0.
Proof. reflexivity. Qed.

Lemma max_int_positive : 0 < Int64.max_int.
Proof. reflexivity. Qed.

(** Fund keeps the balances solvent when the credit fits. *)
Lemma FundWallet_solvent :
  forall (w : World) (userID : uuid) (amount : Z) (reference : string),
    others w = [] ->
    solvent (committed w) ->
    (forall wallet, wallets_GetByUserID (committed w) userID = Ok wallet ->
                    Balance wallet + amount <= Int64.max_int) ->
    solvent (committed (snd (run (FundWallet userID amount reference) w))).
Proof.
  intros w userID amount reference Hq Hs Hfit.
  destruct (FundWallet_outcome w userID amount reference Hq)
    as [->|[wallet [t [Hpos [Hw ->]]]]]; [exact Hs|].
  pose proof (solvent_found _ _ _ Hs Hw) as Hb. specialize (Hfit wallet Hw).
  pose proof min_int_negative.
  destruct (committed w) as [us ws ts]. cbn.
  apply solvent_update with (ts := ts); [exact Hs|].
  rewrite Int64_add_fits; lia.
Qed.

Lemma WithdrawFunds_solvent :
  forall (w : World) (userID : uuid) (amount : Z) (reference : string),
    others w = [] ->
    solvent (committed w) ->
    solvent (committed (snd (run (WithdrawFunds userID amount reference) w))).
Proof.
  intros w userID amount reference Hq Hs.
  destruct (WithdrawFunds_outcome w userID amount reference Hq)
    as [->|[wallet [t [Hpos [Hw [Hle ->]]]]]]; [exact Hs|].
  pose proof (solvent_found _ _ _ Hs Hw) as Hb.
  pose proof min_int_negative.
  destruct (committed w) as [us ws ts]. cbn.
  apply solvent_update with (ts := ts); [exact Hs|].
  rewrite Int64_sub_fits; lia.
Qed.

Lemma TransferFunds_solvent :
  forall (w : World) (fromUserID toUserID : uuid) (amount : Z) (reference : string),
    others w = [] ->
    solvent (committed w) ->
    (forall wallet, wallets_GetByUserID (committed w) toUserID = Ok wallet ->
                    Balance wallet + amount <= Int64.max_int) ->
    solvent (committed (snd (run (TransferFunds fromUserID toUserID amount reference) w))).
Proof.
  intros w fromUserID toUserID amount reference Hq Hs Hfit.
  destruct (TransferFunds_outcome w fromUserID toUserID amount reference Hq)
    as [->|[fw [tw [t [Hpos [Hne [Hf [Ht [Hle ->]]]]]]]]]; [exact Hs|].
  pose proof (solvent_found _ _ _ Hs Hf) as Hbf.
  pose proof (solvent_found _ _ _ Hs Ht) as Hbt.
  specialize (Hfit tw Ht). pose proof min_int_negative.
  destruct (committed w) as [us ws ts]. cbn.
  apply solvent_update with (ts := ts ++ [columns t]).
  - apply solvent_update with (ts := ts); [exact Hs|].
    rewrite Int64_sub_fits; lia.
  - rewrite Int64_add_fits; lia.
Qed.

Lemma CreateUser_solvent :
  forall (w : World) (name email : string),
    others w = [] ->
    solvent (committed w) ->
    solvent (committed (snd (run (CreateUser name email) w))).
Proof.
  intros w name email Hq Hs.
  destruct (CreateUser_outcome w name email Hq) as [->|[user [wallet [Hz ->]]]];
    [exact Hs|].
  unfold solvent in *. cbn. apply Forall_app. split; [exact Hs|].
  constructor; [|constructor]. rewrite Hz. pose proof max_int_positive. lia.
Qed.

(** *** Sequences of operations *)

Lemma perform_alone (o : operation) (w : World) :
  others w = [] -> others (perform o w) = [].
Proof.
  intros Hq. destruct (run_stays_alone w Hq) as [H1 [H2 [H3 H4]]].
  destruct o; unfold perform; [apply H1|apply H2|apply H3|apply H4].
Qed.

Lemma perform_solvent (o : operation) (w : World) :
  others w = [] ->
  solvent (committed w) ->
  credit_fits o (committed w) ->
  solvent (committed (perform o w)).
Proof.
  intros Hq Hs Hfit. destruct o; unfold perform, credit_fits in *.
  - now apply CreateUser_solvent.
  - now apply FundWallet_solvent.
  - now apply WithdrawFunds_solvent.
  - now apply TransferFunds_solvent.
Qed.

(** As long as no credit overflows the int64 of a balance, no sequence
    of operations commits a negative balance. *)
Lemma balances_stay_solvent (os : list operation) :
  forall w,
    others w = [] ->
    solvent (committed w) ->
    credits_fit os w ->
    solvent (committed (perform_all os w)).
Proof.
  induction os as [|o rest IH]; intros w Hq Hs Hfit.
  - exact Hs.
  - destruct Hfit as [Hfit Hrest]. cbn. apply IH.
    + now apply perform_alone.
    + now apply perform_solvent.
    + exact Hrest.
Qed.

Lemma solvent_empty : solvent empty_Store.
Proof. constructor. Qed.

(** The account of a new owner holds 0. *)
Example createAccount_balance :
  balance_of (committed (perform (createAccount "John Doe" "john@example.com")
                                 (alone empty_Store ids))) john
  = Some 0.
Proof. vm_compute. reflexivity. Qed.

(** *** Overflow of a credit *)

(** C3.  The balance is not always >= 0: John's account is created
    with 0 and funded with 9223372036854775807, the largest int64; a
    second fund of 1 succeeds, and the sum wallet.Balance + amount wraps
    around to -9223372036854775808, which is committed. *)
Theorem fund_overflow_commits_a_negative_balance :
  let w0 := alone empty_Store ids in
  let w1 := perform (createAccount "John Doe" "john@example.com") w0 in
  let w2 := perform (fund john 9223372036854775807 "f1") w1 in
  balance_of (committed w1) john = Some 0
  /\ balance_of (committed w2) john = Some 9223372036854775807
  /\ (exists t, fst (run (FundWallet john 1 "f2") w2) = Ok t /\ Amount t = 1)
  /\ balance_of (committed (perform_all rich w0)) john = Some (-9223372036854775808)
  /\ ~ solvent (committed (perform_all rich w0)).
Proof.
  cbv zeta. split; [vm_compute; reflexivity|].
  split; [vm_compute; reflexivity|].
  split; [eexists; split; vm_compute; reflexivity|].
  split; [vm_compute; reflexivity|].
  intros H. unfold solvent in H.
  assert (wallets (committed (perform_all rich (alone empty_Store ids)))
          = [mkWallet 2%N john (-9223372036854775808)]) as E
      by (vm_compute; reflexivity).
  rewrite E in H. inversion H as [|x l Hx _]; subst. cbn in Hx. lia.
Qed.

(** *** Conservation *)

(** As long as the credit of the destination fits its int64, a
    transfer leaves the sum of the two balances as it was. *)
Lemma transfer_conserves_when_credit_fits :
  forall (w : World) (fromUserID toUserID : uuid) (amount : Z) (reference : string)
         (a b : Z),
    others w = [] ->
    fromUserID <> toUserID ->
    balance_of (committed w) fromUserID = Some a ->
    balance_of (committed w) toUserID = Some b ->
    Int64.in_range a -> Int64.in_range b ->
    b + amount <= Int64.max_int ->
    exists a' b',
      balance_of
        (committed (snd (run (TransferFunds fromUserID toUserID amount reference) w)))
        fromUserID = Some a'
      /\ balance_of
           (committed (snd (run (TransferFunds fromUserID toUserID amount reference) w)))
           toUserID = Some b'
      /\ a' + b' = a + b.
Proof.
  intros w fromUserID toUserID amount reference a b Hq Hne Ha Hb Hra Hrb Hfit.
  destruct (TransferFunds_outcome w fromUserID toUserID amount reference Hq)
    as [->|[fw [tw [t [Hpos [_ [Hf [Ht [Hle ->]]]]]]]]].
  - exists a, b. auto.
  - unfold balance_of in Ha, Hb. rewrite Hf in Ha. rewrite Ht in Hb.
    inversion Ha; subst a. inversion Hb; subst b.
    destruct (committed w) as [us ws ts] eqn:Es. cbn [apply_writes fold_left apply_write
                                                       users wallets transactions].
    exists (Int64.sub (Balance fw) amount), (Int64.add (Balance tw) amount).
    assert ((fromUserID =? toUserID)%N = false) as Hft by now apply N.eqb_neq.
    assert ((toUserID =? fromUserID)%N = false) as Htf
        by (apply N.eqb_neq; congruence).
    split; [|split].
    + rewrite !balance_of_update. rewrite (balance_of_transactions us ws _ ts).
      unfold balance_of. rewrite Hf. rewrite Hft, N.eqb_refl. reflexivity.
    + rewrite !balance_of_update. rewrite (balance_of_transactions us ws _ ts).
      unfold balance_of. rewrite Ht. rewrite Htf, N.eqb_refl. reflexivity.
    + unfold Int64.in_range in *. pose proof min_int_negative.
      rewrite Int64_sub_fits, Int64_add_fits; lia.
Qed.

(** C2.  The sum of the two balances is not always conserved: with 1
    in John's account and 9223372036854775807 in Jane's, a transfer of 1
    from John to Jane succeeds; John's balance becomes 0 and Jane's wraps
    around to -9223372036854775808, so the two balances that summed to
    9223372036854775808 now sum to -9223372036854775808. *)
Theorem transfer_overflow_breaks_conservation :
  let w0 := perform_all [fund john 1 "f1"; fund jane 9223372036854775807 "f2"]
                        after_setup in
  let w1 := snd (run (TransferFunds john jane 1 "t1") w0) in
  balance_of (committed w0) john = Some 1
  /\ balance_of (committed w0) jane = Some 9223372036854775807
  /\ (exists t, fst (run (TransferFunds john jane 1 "t1") w0) = Ok t
                /\ Amount t = 1 /\ Status t = TransactionStatusCompleted)
  /\ balance_of (committed w1) john = Some 0
  /\ balance_of (committed w1) jane = Some (-9223372036854775808)
  /\ 0 + -9223372036854775808 <> 1 + 9223372036854775807.
Proof.
  cbv zeta.
  split; [vm_compute; reflexivity|].
  split; [vm_compute; reflexivity|].
  split.
  { eexists. split; [vm_compute; reflexivity|]. split; reflexivity. }
  split; [vm_compute; reflexivity|].
  split; [vm_compute; reflexivity|].
  lia.
Qed.

(** ** The entries the use cases create *)

Ltac entry_added H :=
  first
    [ exact H
    | apply Forall_app; split; [exact H|];
      constructor; [|constructor]; cbn;
      first [ split; reflexivity
            | do 2 eexists; split; [reflexivity|]; split; [reflexivity|];
              apply N.eqb_neq; assumption ] ].

(** Every entry a use case adds is one of the data model. *)
Lemma perform_well_formed (o : operation) (w : World) :
  others w = [] ->
  Forall well_formed_entry (transactions (committed w)) ->
  Forall well_formed_entry (transactions (committed (perform o w))).
Proof.
  intros Hq H. alone w Hq. simpl in H.
  destruct o; unfold perform, run, CreateUser, FundWallet, WithdrawFunds, TransferFunds;
    walk; entry_added H.
Qed.

Lemma ledger_stays_well_formed (os : list operation) :
  forall w,
    others w = [] ->
    Forall well_formed_entry (transactions (committed w)) ->
    Forall well_formed_entry (transactions (committed (perform_all os w))).
Proof.
  induction os as [|o rest IH]; intros w Hq H.
  - exact H.
  - cbn. apply IH.
    + now apply perform_alone.
    + now apply perform_well_formed.
Qed.

(** In int64 arithmetic the two sums of a transfer are equal even
    when the credit wraps around: the wrapped sum hides the 2^64 that the
    destination lost. *)
Lemma Int64_transfer_sums (a b amount : Z) :
  Int64.add (Int64.sub a amount) (Int64.add b amount) = Int64.add a b.
Proof.
  unfold Int64.add, Int64.sub, Int64.wrap. f_equal.
  replace ((a - amount + 2 ^ 63) mod 2 ^ 64 - 2 ^ 63
           + ((b + amount + 2 ^ 63) mod 2 ^ 64 - 2 ^ 63) + 2 ^ 63)
    with ((a - amount + 2 ^ 63) mod 2 ^ 64
          + ((b + amount + 2 ^ 63) mod 2 ^ 64 - 2 ^ 63)) by lia.
  rewrite Z.add_mod_idemp_l by lia.
  replace (a - amount + 2 ^ 63 + ((b + amount + 2 ^ 63) mod 2 ^ 64 - 2 ^ 63))
    with ((b + amount + 2 ^ 63) mod 2 ^ 64 + (a - amount)) by lia.
  rewrite Z.add_mod_idemp_l by lia.
  f_equal. lia.
Qed.


(** * More of the service *)

(** ** Every way a use case can end *)

Lemma GetByReference_Err (s : Store) (reference : string) (e : error) :
  transactions_GetByReference s reference = Err e ->
  e = ErrRecordNotFound
  /\ existsb (fun x => String.eqb (Reference x) reference) (transactions s) = false.
Proof.
  unfold transactions_GetByReference. intros H. apply First_Err in H.
  destruct H as [-> H]. split; [reflexivity|].
  destruct (existsb _ _) eqn:E; [|reflexivity].
  apply existsb_exists in E. destruct E as [x [Hin Hx]].
  rewrite (H x Hin) in Hx. discriminate.
Qed.

Lemma GetByID_Ok (s : Store) (id : uuid) (user : User) :
  users_GetByID s id = Ok user ->
  User_ID user = id /\ known_owner s id.
Proof.
  unfold users_GetByID.
  destruct (First User_ID _ (users s)) as [u|e] eqn:E; [|discriminate].
  intros H. inversion H; subst. apply First_Ok in E. destruct E as [Hin Hc].
  apply N.eqb_eq in Hc. split; [exact Hc|]. exists u. auto.
Qed.

(** Turns what [walk] has found into the facts the statements use. *)
Ltac found :=
  repeat match goal with
         | H : (_ <=? _) = false |- _ => apply Z.leb_gt in H
         | H : (_ <? _) = false |- _ => apply Z.ltb_ge in H
         | H : (_ =? _)%N = false |- _ => apply N.eqb_neq in H
         | H : transactions_GetByReference _ _ = Err ?e |- _ =>
             is_var e; destruct (GetByReference_Err _ _ _ H) as [-> _]
         end.

(** FundWallet ends in one of three ways: it fails and the store is as
    it was; it finds the reference and returns the stored entry; or it
    commits one credit entry and the new balance together. *)
Lemma FundWallet_cases :
  forall (w : World) (userID : uuid) (amount : Z) (reference : string),
    others w = [] ->
    (exists err,
        fst (run (FundWallet userID amount reference) w) = Err err
        /\ committed (snd (run (FundWallet userID amount reference) w)) = committed w)
    \/ (exists existing,
           fst (run (FundWallet userID amount reference) w) = Ok existing
           /\ transactions_GetByReference (committed w) reference = Ok existing
           /\ committed (snd (run (FundWallet userID amount reference) w))
              = committed w)
    \/ (exists user wallet,
           0 < amount
           /\ transactions_GetByReference (committed w) reference
              = Err ErrRecordNotFound
           /\ users_GetByID (committed w) userID = Ok user
           /\ wallets_GetByUserID (committed w) userID = Ok wallet
           /\ fst (run (FundWallet userID amount reference) w)
              = Ok (set_Txn_User
                      (credit_entry (next_id w) userID amount reference) user)
           /\ committed (snd (run (FundWallet userID amount reference) w))
              = apply_writes
                  [InsertTransaction
                     (credit_entry (next_id w) userID amount reference);
                   UpdateBalance userID (Int64.add (Balance wallet) amount)]
                  (committed w)).
Proof.
  intros w userID amount reference Hq. alone w Hq.
  unfold run, FundWallet, next_id.
  walk; found;
    first [ left; eexists; split; reflexivity
          | right; left; eexists; split; [reflexivity|]; split; reflexivity
          | right; right; do 2 eexists;
            repeat (split; [first [eassumption|reflexivity]|]); reflexivity ].
Qed.

Lemma WithdrawFunds_cases :
  forall (w : World) (userID : uuid) (amount : Z) (reference : string),
    others w = [] ->
    (exists err,
        fst (run (WithdrawFunds userID amount reference) w) = Err err
        /\ committed (snd (run (WithdrawFunds userID amount reference) w))
           = committed w)
    \/ (exists existing,
           fst (run (WithdrawFunds userID amount reference) w) = Ok existing
           /\ transactions_GetByReference (committed w) reference = Ok existing
           /\ committed (snd (run (WithdrawFunds userID amount reference) w))
              = committed w)
    \/ (exists user wallet,
           0 < amount
           /\ transactions_GetByReference (committed w) reference
              = Err ErrRecordNotFound
           /\ users_GetByID (committed w) userID = Ok user
           /\ wallets_GetByUserID (committed w) userID = Ok wallet
           /\ amount <= Balance wallet
           /\ fst (run (WithdrawFunds userID amount reference) w)
              = Ok (set_Txn_User
                      (debit_entry (next_id w) userID amount reference) user)
           /\ committed (snd (run (WithdrawFunds userID amount reference) w))
              = apply_writes
                  [InsertTransaction
                     (debit_entry (next_id w) userID amount reference);
                   UpdateBalance userID (Int64.sub (Balance wallet) amount)]
                  (committed w)).
Proof.
  intros w userID amount reference Hq. alone w Hq.
  unfold run, WithdrawFunds, next_id.
  walk; found;
    first [ left; eexists; split; reflexivity
          | right; left; eexists; split; [reflexivity|]; split; reflexivity
          | right; right; do 2 eexists;
            repeat (split; [first [eassumption|reflexivity]|]); reflexivity ].
Qed.

Lemma TransferFunds_cases :
  forall (w : World) (fromUserID toUserID : uuid) (amount : Z) (reference : string),
    others w = [] ->
    (exists err,
        fst (run (TransferFunds fromUserID toUserID amount reference) w) = Err err
        /\ committed (snd (run (TransferFunds fromUserID toUserID amount reference) w))
           = committed w)
    \/ (exists existing,
           fst (run (TransferFunds fromUserID toUserID amount reference) w)
           = Ok existing
           /\ transactions_GetByReference (committed w) reference = Ok existing
           /\ committed
                (snd (run (TransferFunds fromUserID toUserID amount reference) w))
              = committed w)
    \/ (exists fromUser toUser fromWallet toWallet,
           0 < amount
           /\ fromUserID <> toUserID
           /\ transactions_GetByReference (committed w) reference
              = Err ErrRecordNotFound
           /\ users_GetByID (committed w) fromUserID = Ok fromUser
           /\ users_GetByID (committed w) toUserID = Ok toUser
           /\ wallets_GetByUserID (committed w) fromUserID = Ok fromWallet
           /\ wallets_GetByUserID (committed w) toUserID = Ok toWallet
           /\ amount <= Balance fromWallet
           /\ fst (run (TransferFunds fromUserID toUserID amount reference) w)
              = Ok (set_Txn_Users
                      (transfer_entry (next_id w) fromUserID toUserID amount
                                      reference (Name toUser))
                      fromUser fromUser toUser)
           /\ committed
                (snd (run (TransferFunds fromUserID toUserID amount reference) w))
              = apply_writes
                  [InsertTransaction
                     (transfer_entry (next_id w) fromUserID toUserID amount
                                     reference (Name toUser));
                   UpdateBalance fromUserID (Int64.sub (Balance fromWallet) amount);
                   UpdateBalance toUserID (Int64.add (Balance toWallet) amount)]
                  (committed w)).
Proof.
  intros w fromUserID toUserID amount reference Hq. alone w Hq.
  unfold run, TransferFunds, next_id.
  walk; found;
    first [ left; eexists; split; reflexivity
          | right; left; eexists; split; [reflexivity|]; split; reflexivity
          | right; right; do 4 eexists;
            repeat (split; [first [eassumption|reflexivity]|]); reflexivity ].
Qed.

(** CreateUser either fails and leaves the store as it was, or commits
    the user and a wallet of balance 0 together and returns what
    GetByID then reads. *)
Lemma CreateUser_cases :
  forall (w : World) (name email : string),
    others w = [] ->
    (exists err,
        fst (run (CreateUser name email) w) = Err err
        /\ committed (snd (run (CreateUser name email) w)) = committed w)
    \/ (has_pk User_ID (next_id w) (users (committed w)) = false
        /\ existsb (fun x => String.eqb (Email x) email) (users (committed w)) = false
        /\ existsb (fun x => (Wallet_UserID x =? next_id w)%N)
                   (wallets (committed w)) = false
        /\ committed (snd (run (CreateUser name email) w))
           = apply_writes
               [InsertUser (mkUser (next_id w) name email None);
                InsertWallet (mkWallet (entropy w (S (drawn w))) (next_id w) 0)]
               (committed w)
        /\ fst (run (CreateUser name email) w)
           = users_GetByID (committed (snd (run (CreateUser name email) w)))
                           (next_id w)).
Proof.
  intros w name email Hq. alone w Hq.
  unfold run, CreateUser, next_id.
  walk; found;
    first [ left; eexists; split; reflexivity
          | right; repeat (split; [first [eassumption|reflexivity]|]); reflexivity ].
Qed.

(** ** What the ledger keeps *)

Lemma existsb_false_forall {A : Type} (f : A -> bool) (l : list A) :
  existsb f l = false -> forall x, In x l -> f x = false.
Proof.
  intros H x Hin. destruct (f x) eqn:E; [|reflexivity].
  assert (existsb f l = true) as Ht by (apply existsb_exists; eauto).
  congruence.
Qed.

Lemma NoDup_snoc {A : Type} (l : list A) (a : A) :
  NoDup l -> ~ In a l -> NoDup (l ++ [a]).
Proof.
  intros Hl Ha. induction Hl as [|x l Hx Hl IH]; cbn.
  - constructor; [auto|constructor].
  - constructor.
    + rewrite in_app_iff. cbn. intros [H|[H|[]]]; [auto|].
      subst. apply Ha. now left.
    + apply IH. intros H. apply Ha. now right.
Qed.

Lemma known_owner_users (us us' : list User) (ws ws' : list Wallet)
      (ts ts' : list Transaction) (userID : uuid) :
  known_owner (mkStore us ws ts) userID ->
  known_owner (mkStore (us ++ us') ws' ts') userID.
Proof.
  intros [user [Hin Hid]]. exists user. split; [|exact Hid].
  cbn in *. apply in_app_iff. now left.
Qed.

Lemma update_balance_owner (userID : uuid) (newBalance : Z) (wallet : Wallet) :
  Wallet_UserID (update_balance userID newBalance wallet) = Wallet_UserID wallet.
Proof. unfold update_balance. destruct (_ =? _)%N; reflexivity. Qed.

(** One more entry, and balances rewritten in place. *)
Lemma ledger_invariant_entry (us : list User) (ws : list Wallet)
      (ts : list Transaction) (f : Wallet -> Wallet) (t : Transaction) :
  ledger_invariant (mkStore us ws ts) ->
  (forall wallet, Wallet_UserID (f wallet) = Wallet_UserID wallet) ->
  Status t = TransactionStatusCompleted ->
  0 < Amount t ->
  existsb (fun x => String.eqb (Reference x) (Reference t)) ts = false ->
  (forall userID, touches userID t = true -> known_owner (mkStore us ws ts) userID) ->
  ledger_invariant (mkStore us (map f ws) (ts ++ [t])).
Proof.
  intros [Hc [Hr [Hw Hn]]] Hf Hst Hamt Hfresh Hknown.
  unfold ledger_invariant, entries_completed, references_unique,
    every_user_has_a_wallet, entries_name_users in *. cbn in *.
  split; [|split; [|split]].
  - apply Forall_app. split; [exact Hc|]. constructor; [auto|constructor].
  - rewrite map_app. cbn. apply NoDup_snoc; [exact Hr|].
    intros Hin. apply in_map_iff in Hin. destruct Hin as [x [Hx Hin]].
    pose proof (existsb_false_forall _ _ Hfresh x Hin) as Hne. cbn in Hne.
    apply String.eqb_neq in Hne. congruence.
  - eapply Forall_impl; [|exact Hw]. intros user [wallet [Hin Hid]].
    exists (f wallet). split; [now apply in_map|]. now rewrite Hf.
  - apply Forall_app. split.
    + eapply Forall_impl; [|exact Hn]. intros x Hx userID Ht.
      destruct (Hx userID Ht) as [user [Hin Hid]]. exists user. auto.
    + constructor; [|constructor]. intros userID Ht.
      destruct (Hknown userID Ht) as [user [Hin Hid]]. exists user. auto.
Qed.

Lemma touches_credit id userID amount reference v :
  touches v (credit_entry id userID amount reference) = (userID =? v)%N.
Proof. unfold touches. cbn. now rewrite !orb_false_r. Qed.

Lemma touches_debit id userID amount reference v :
  touches v (debit_entry id userID amount reference) = (userID =? v)%N.
Proof. unfold touches. cbn. now rewrite !orb_false_r. Qed.

Lemma touches_transfer id fromUserID toUserID amount reference name v :
  touches v (transfer_entry id fromUserID toUserID amount reference name)
  = (fromUserID =? v)%N || (toUserID =? v)%N.
Proof. unfold touches. cbn. now rewrite orb_diag. Qed.

Lemma FundWallet_ledger_invariant (w : World) userID amount reference :
  others w = [] ->
  ledger_invariant (committed w) ->
  ledger_invariant (committed (snd (run (FundWallet userID amount reference) w))).
Proof.
  intros Hq Hinv.
  destruct (FundWallet_cases w userID amount reference Hq)
    as [[err [_ ->]]|[[existing [_ [_ ->]]]
                     |[user [wallet [Hpos [Href [Hu [Hw [_ ->]]]]]]]]];
    try exact Hinv.
  apply GetByReference_Err in Href. destruct Href as [_ Href].
  apply GetByID_Ok in Hu. destruct Hu as [_ Hu].
  destruct (committed w) as [us ws ts]. cbn [apply_writes fold_left apply_write
                                             users wallets transactions].
  apply ledger_invariant_entry; try assumption; try reflexivity.
  - intros x. apply update_balance_owner.
  - intros v Hv. rewrite touches_credit in Hv. apply N.eqb_eq in Hv. now subst.
Qed.

Lemma WithdrawFunds_ledger_invariant (w : World) userID amount reference :
  others w = [] ->
  ledger_invariant (committed w) ->
  ledger_invariant (committed (snd (run (WithdrawFunds userID amount reference) w))).
Proof.
  intros Hq Hinv.
  destruct (WithdrawFunds_cases w userID amount reference Hq)
    as [[err [_ ->]]|[[existing [_ [_ ->]]]
                     |[user [wallet [Hpos [Href [Hu [Hw [_ [_ ->]]]]]]]]]];
    try exact Hinv.
  apply GetByReference_Err in Href. destruct Href as [_ Href].
  apply GetByID_Ok in Hu. destruct Hu as [_ Hu].
  destruct (committed w) as [us ws ts]. cbn [apply_writes fold_left apply_write
                                             users wallets transactions].
  apply ledger_invariant_entry; try assumption; try reflexivity.
  - intros x. apply update_balance_owner.
  - intros v Hv. rewrite touches_debit in Hv. apply N.eqb_eq in Hv. now subst.
Qed.

Lemma TransferFunds_ledger_invariant (w : World) fromUserID toUserID amount reference :
  others w = [] ->
  ledger_invariant (committed w) ->
  ledger_invariant
    (committed (snd (run (TransferFunds fromUserID toUserID amount reference) w))).
Proof.
  intros Hq Hinv.
  destruct (TransferFunds_cases w fromUserID toUserID amount reference Hq)
    as [[err [_ ->]]|[[existing [_ [_ ->]]]
                     |[fu [tu [fw [tw [Hpos [Hne [Href [Hfu [Htu [_ [_ [_ [_ ->]]]]]]]]]]]]]]];
    try exact Hinv.
  apply GetByReference_Err in Href. destruct Href as [_ Href].
  apply GetByID_Ok in Hfu. destruct Hfu as [_ Hfu].
  apply GetByID_Ok in Htu. destruct Htu as [_ Htu].
  destruct (committed w) as [us ws ts]. cbn [apply_writes fold_left apply_write
                                             users wallets transactions].
  rewrite map_map.
  apply ledger_invariant_entry; try assumption; try reflexivity.
  - intros x. now rewrite !update_balance_owner.
  - intros v Hv. rewrite touches_transfer in Hv. apply orb_prop in Hv.
    destruct Hv as [Hv|Hv]; apply N.eqb_eq in Hv; now subst.
Qed.

Lemma CreateUser_ledger_invariant (w : World) name email :
  others w = [] ->
  ledger_invariant (committed w) ->
  ledger_invariant (committed (snd (run (CreateUser name email) w))).
Proof.
  intros Hq Hinv.
  destruct (CreateUser_cases w name email Hq)
    as [[err [_ ->]]|[_ [_ [_ [-> _]]]]]; [exact Hinv|].
  destruct Hinv as [Hc [Hr [Hw Hn]]].
  destruct (committed w) as [us ws ts].
  unfold ledger_invariant, entries_completed, references_unique,
    every_user_has_a_wallet, entries_name_users in *. cbn in *.
  split; [exact Hc|]. split; [exact Hr|]. split.
  - apply Forall_app. split.
    + eapply Forall_impl; [|exact Hw]. intros user [wallet [Hin Hid]].
      exists wallet. split; [|exact Hid]. apply in_app_iff. now left.
    + constructor; [|constructor]. eexists. split.
      * apply in_app_iff. right. left. reflexivity.
      * reflexivity.
  - eapply Forall_impl; [|exact Hn]. intros t Ht userID Htouch.
    destruct (Ht userID Htouch) as [user [Hin Hid]].
    exists user. split; [|exact Hid]. cbn. apply in_app_iff. now left.
Qed.

Lemma perform_ledger_invariant (o : operation) (w : World) :
  others w = [] ->
  ledger_invariant (committed w) ->
  ledger_invariant (committed (perform o w)).
Proof.
  intros Hq Hinv. destruct o; unfold perform.
  - now apply CreateUser_ledger_invariant.
  - now apply FundWallet_ledger_invariant.
  - now apply WithdrawFunds_ledger_invariant.
  - now apply TransferFunds_ledger_invariant.
Qed.

Lemma ledger_invariant_empty : ledger_invariant empty_Store.
Proof. repeat split; constructor. Qed.

(** X1.  Whatever operations are run one after the other on a new
    store, every entry in it is Completed with a positive amount, no two
    entries share a reference, every user has a wallet, and every entry
    names users that exist. *)
Theorem ledger_invariant_always :
  forall (os : list operation) (e : nat -> uuid),
    let s := committed (perform_all os (alone empty_Store e)) in
    entries_completed s /\ references_unique s
    /\ every_user_has_a_wallet s /\ entries_name_users s.
Proof.
  intros os e. cbv zeta.
  assert (forall w, others w = [] -> ledger_invariant (committed w) ->
                    ledger_invariant (committed (perform_all os w))) as H.
  { induction os as [|o rest IH]; intros w Hq Hinv; [exact Hinv|].
    cbn. apply IH; [now apply perform_alone|now apply perform_ledger_invariant]. }
  apply (H (alone empty_Store e)); [reflexivity|apply ledger_invariant_empty].
Qed.

(** ** Balances and ledger agree *)

Lemma sum_Z_app (l l' : list Z) : sum_Z (l ++ l') = sum_Z l + sum_Z l'.
Proof.
  unfold sum_Z. induction l as [|x l IH]; cbn [app fold_right]; [reflexivity|].
  rewrite IH. lia.
Qed.

Lemma ledger_sum_snoc (us : list User) (ws : list Wallet) (ts : list Transaction)
      (t : Transaction) (userID : uuid) :
  ledger_sum (mkStore us ws (ts ++ [t])) userID
  = ledger_sum (mkStore us ws ts) userID + contribution userID t.
Proof.
  unfold ledger_sum, contribution. cbn [transactions].
  rewrite filter_app, map_app, sum_Z_app. cbn [filter].
  destruct (sum_where userID t); cbn; lia.
Qed.

Lemma ledger_sum_untouched (s : Store) (userID : uuid) :
  (forall t, In t (transactions s) -> touches userID t = false) ->
  ledger_sum s userID = 0.
Proof.
  intros H. unfold ledger_sum.
  replace (filter (sum_where userID) (transactions s)) with (@nil Transaction);
    [reflexivity|].
  symmetry. induction (transactions s) as [|t ts IH]; [reflexivity|].
  cbn. rewrite sum_where_touches, (H t (or_introl eq_refl)), andb_false_r.
  apply IH. intros x Hx. apply H. now right.
Qed.

Lemma contribution_credit id userID amount reference v :
  contribution v (credit_entry id userID amount reference)
  = if (userID =? v)%N then amount else 0.
Proof.
  unfold contribution, sum_where, sum_case. cbn.
  rewrite !orb_false_r, andb_true_r. reflexivity.
Qed.

Lemma contribution_debit id userID amount reference v :
  contribution v (debit_entry id userID amount reference)
  = if (userID =? v)%N then - amount else 0.
Proof.
  unfold contribution, sum_where, sum_case. cbn.
  rewrite !orb_false_r, andb_true_r. destruct (userID =? v)%N; reflexivity.
Qed.

Lemma contribution_transfer id fromUserID toUserID amount reference name v :
  contribution v (transfer_entry id fromUserID toUserID amount reference name)
  = if (fromUserID =? v)%N then - amount
    else if (toUserID =? v)%N then amount else 0.
Proof.
  unfold contribution, sum_where, sum_case. cbn.
  rewrite andb_true_r, orb_diag.
  destruct (fromUserID =? v)%N; destruct (toUserID =? v)%N; reflexivity.
Qed.

Lemma reconciled_entry (us : list User) (ws : list Wallet) (ts : list Transaction)
      (f : Wallet -> Wallet) (t : Transaction) :
  reconciled (mkStore us ws ts) ->
  (forall wallet,
      In wallet ws ->
      Wallet_UserID (f wallet) = Wallet_UserID wallet
      /\ Balance (f wallet)
         = Balance wallet + contribution (Wallet_UserID wallet) t) ->
  reconciled (mkStore us (map f ws) (ts ++ [t])).
Proof.
  unfold reconciled. cbn [wallets]. intros Hr Hf.
  apply Forall_map. apply Forall_forall. intros wallet Hin.
  rewrite Forall_forall in Hr. specialize (Hr wallet Hin).
  destruct (Hf wallet Hin) as [Ho Hb].
  rewrite Ho, Hb, ledger_sum_snoc, Hr. reflexivity.
Qed.

Lemma reconciled_found (s : Store) (userID : uuid) (wallet : Wallet) :
  reconciled s ->
  wallets_GetByUserID s userID = Ok wallet ->
  Balance wallet = ledger_sum s userID.
Proof.
  intros Hr H. pose proof (GetByUserID_owner _ _ _ H) as Ho.
  unfold wallets_GetByUserID in H. apply First_Ok in H. destruct H as [Hin _].
  unfold reconciled in Hr. rewrite Forall_forall in Hr.
  rewrite (Hr wallet Hin), Ho. reflexivity.
Qed.

Lemma FundWallet_reconciled (w : World) userID amount reference :
  others w = [] ->
  solvent (committed w) ->
  reconciled (committed w) ->
  credit_fits (fund userID amount reference) (committed w) ->
  reconciled (committed (snd (run (FundWallet userID amount reference) w))).
Proof.
  intros Hq Hs Hr Hfit.
  destruct (FundWallet_cases w userID amount reference Hq)
    as [[err [_ ->]]|[[existing [_ [_ ->]]]
                     |[user [wallet [Hpos [_ [_ [Hw [_ ->]]]]]]]]];
    try exact Hr.
  pose proof (solvent_found _ _ _ Hs Hw) as Hb.
  pose proof (reconciled_found _ _ _ Hr Hw) as Hsum.
  specialize (Hfit wallet Hw). pose proof min_int_negative.
  rewrite Int64_add_fits by lia.
  destruct (committed w) as [us ws ts]. cbn [apply_writes fold_left apply_write
                                             users wallets transactions].
  apply reconciled_entry; [exact Hr|].
  intros x Hx. split; [apply update_balance_owner|].
  rewrite contribution_credit. unfold update_balance.
  rewrite (N.eqb_sym userID). destruct (N.eqb_spec (Wallet_UserID x) userID) as [E|E].
  - cbn. unfold reconciled in Hr. rewrite Forall_forall in Hr.
    rewrite (Hr x Hx). cbn [wallets]. rewrite E, <- Hsum. reflexivity.
  - lia.
Qed.

Lemma WithdrawFunds_reconciled (w : World) userID amount reference :
  others w = [] ->
  solvent (committed w) ->
  reconciled (committed w) ->
  reconciled (committed (snd (run (WithdrawFunds userID amount reference) w))).
Proof.
  intros Hq Hs Hr.
  destruct (WithdrawFunds_cases w userID amount reference Hq)
    as [[err [_ ->]]|[[existing [_ [_ ->]]]
                     |[user [wallet [Hpos [_ [_ [Hw [Hle [_ ->]]]]]]]]]];
    try exact Hr.
  pose proof (solvent_found _ _ _ Hs Hw) as Hb.
  pose proof (reconciled_found _ _ _ Hr Hw) as Hsum.
  pose proof min_int_negative.
  rewrite Int64_sub_fits by lia.
  destruct (committed w) as [us ws ts]. cbn [apply_writes fold_left apply_write
                                             users wallets transactions].
  apply reconciled_entry; [exact Hr|].
  intros x Hx. split; [apply update_balance_owner|].
  rewrite contribution_debit. unfold update_balance.
  rewrite (N.eqb_sym userID). destruct (N.eqb_spec (Wallet_UserID x) userID) as [E|E].
  - cbn. unfold reconciled in Hr. rewrite Forall_forall in Hr.
    rewrite (Hr x Hx). cbn [wallets]. rewrite E, <- Hsum. lia.
  - lia.
Qed.

Lemma TransferFunds_reconciled (w : World) fromUserID toUserID amount reference :
  others w = [] ->
  solvent (committed w) ->
  reconciled (committed w) ->
  credit_fits (transfer fromUserID toUserID amount reference) (committed w) ->
  reconciled
    (committed (snd (run (TransferFunds fromUserID toUserID amount reference) w))).
Proof.
  intros Hq Hs Hr Hfit.
  destruct (TransferFunds_cases w fromUserID toUserID amount reference Hq)
    as [[err [_ ->]]|[[existing [_ [_ ->]]]
                     |[fu [tu [fw [tw [Hpos [Hne [_ [_ [_ [Hfw [Htw [Hle [_ ->]]]]]]]]]]]]]]];
    try exact Hr.
  pose proof (solvent_found _ _ _ Hs Hfw) as Hbf.
  pose proof (solvent_found _ _ _ Hs Htw) as Hbt.
  pose proof (reconciled_found _ _ _ Hr Hfw) as Hsf.
  pose proof (reconciled_found _ _ _ Hr Htw) as Hst.
  specialize (Hfit tw Htw). pose proof min_int_negative.
  rewrite Int64_sub_fits by lia. rewrite Int64_add_fits by lia.
  destruct (committed w) as [us ws ts]. cbn [apply_writes fold_left apply_write
                                             users wallets transactions].
  rewrite map_map.
  apply reconciled_entry; [exact Hr|].
  intros x Hx. split; [now rewrite !update_balance_owner|].
  rewrite contribution_transfer.
  unfold reconciled in Hr. rewrite Forall_forall in Hr.
  specialize (Hr x Hx). cbn [wallets] in Hr.
  unfold update_balance at 2.
  rewrite (N.eqb_sym fromUserID), (N.eqb_sym toUserID).
  destruct (N.eqb_spec (Wallet_UserID x) fromUserID) as [E|E].
  - unfold update_balance. cbn [Wallet_UserID set_Balance]. rewrite E.
    destruct (N.eqb_spec fromUserID toUserID) as [E'|E']; [contradiction|].
    cbn. rewrite Hr, E, <- Hsf. lia.
  - unfold update_balance.
    destruct (N.eqb_spec (Wallet_UserID x) toUserID) as [E'|E'].
    + cbn. rewrite Hr, E', <- Hst. lia.
    + lia.
Qed.

Lemma CreateUser_reconciled (w : World) name email :
  others w = [] ->
  entries_name_users (committed w) ->
  reconciled (committed w) ->
  reconciled (committed (snd (run (CreateUser name email) w))).
Proof.
  intros Hq Hn Hr.
  destruct (CreateUser_cases w name email Hq)
    as [[err [_ ->]]|[Hpk [_ [_ [-> _]]]]]; [exact Hr|].
  assert (ledger_sum (committed w) (next_id w) = 0) as Hzero.
  { apply ledger_sum_untouched. intros t Ht.
    destruct (touches (next_id w) t) eqn:E; [|reflexivity].
    unfold entries_name_users in Hn. rewrite Forall_forall in Hn.
    destruct (Hn t Ht _ E) as [user [Hin Hid]].
    pose proof (existsb_false_forall _ _ Hpk user Hin) as Hne. cbn in Hne.
    apply N.eqb_neq in Hne. contradiction. }
  destruct (committed w) as [us ws ts]. unfold reconciled in *. cbn in *.
  apply Forall_app. split; [exact Hr|].
  constructor; [|constructor]. cbn. symmetry. exact Hzero.
Qed.

Lemma perform_books_balance (o : operation) (w : World) :
  others w = [] ->
  books_balance (committed w) ->
  credit_fits o (committed w) ->
  books_balance (committed (perform o w)).
Proof.
  intros Hq [Hs [Hr Hinv]] Hfit. split; [|split].
  - now apply perform_solvent.
  - destruct o; unfold perform.
    + apply CreateUser_reconciled; [assumption| |assumption]. apply Hinv.
    + now apply FundWallet_reconciled.
    + now apply WithdrawFunds_reconciled.
    + now apply TransferFunds_reconciled.
  - now apply perform_ledger_invariant.
Qed.

Lemma perform_all_books_balance (os : list operation) :
  forall w,
    others w = [] ->
    books_balance (committed w) ->
    credits_fit os w ->
    books_balance (committed (perform_all os w))
    /\ others (perform_all os w) = [].
Proof.
  induction os as [|o rest IH]; intros w Hq Hb Hfit.
  - split; assumption.
  - destruct Hfit as [Hfit Hrest]. cbn. apply IH.
    + now apply perform_alone.
    + now apply perform_books_balance.
    + exact Hrest.
Qed.

Lemma Int64_sub_diag (b : Z) : Int64.sub b b = 0.
Proof. unfold Int64.sub. rewrite Z.sub_diag. reflexivity. Qed.

(** On a store whose books balance, every wallet is reported without
    a mismatch. *)
Lemma results_for_balanced (s : Store) :
  solvent s -> reconciled s ->
  results_for (transactions_GetUserTransactionSum s) (wallets s)
  = map (fun wallet =>
           mkReconciliationResult (Wallet_UserID wallet) (Balance wallet)
                                  (Balance wallet) 0 false)
        (wallets s).
Proof.
  unfold solvent, reconciled, results_for.
  induction (wallets s) as [|wallet ws IH]; intros Hs Hr; [reflexivity|].
  inversion Hs as [|? ? Hb Hs']; subst. inversion Hr as [|? ? He Hr']; subst.
  cbn [flat_map map]. rewrite (IH Hs' Hr').
  unfold transactions_GetUserTransactionSum. fold (ledger_sum s (Wallet_UserID wallet)).
  rewrite <- He.
  assert (Int64.in_rangeb (Balance wallet) = true) as Hin.
  { unfold Int64.in_rangeb. pose proof min_int_negative.
    apply andb_true_intro. split; apply Z.leb_le; lia. }
  rewrite Hin. cbn [app]. unfold reconcile_wallet.
  rewrite Int64_sub_diag. reflexivity.
Qed.

Lemma countMismatches_none (rs : list ReconciliationResult) :
  Forall (fun r => HasMismatch r = false) rs -> countMismatches rs = 0%nat.
Proof.
  induction 1 as [|r rs Hr _ IH]; [reflexivity|]. cbn. now rewrite Hr.
Qed.

(** X2.  After any operations run one after the other on a new store,
    none of whose credits overflows the int64 of a balance, every
    stored balance is the sum of the entries of its owner, and a
    reconciliation run reports every wallet, each with a calculated
    balance equal to the stored one, difference 0 and no mismatch. *)
Theorem reconciliation_finds_no_mismatch :
  forall (os : list operation) (e : nat -> uuid),
    credits_fit os (alone empty_Store e) ->
    let w := perform_all os (alone empty_Store e) in
    reconciled (committed w)
    /\ exists w',
        run RunReconciliation w
        = (Ok (map (fun wallet =>
                      mkReconciliationResult (Wallet_UserID wallet) (Balance wallet)
                                             (Balance wallet) 0 false)
                   (wallets (committed w))), w')
        /\ committed w' = committed w.
Proof.
  intros os e Hfit. cbv zeta.
  destruct (perform_all_books_balance os (alone empty_Store e)) as [[Hs [Hr _]] Hq];
    [reflexivity| |exact Hfit|].
  { split; [apply solvent_empty|]. split; [constructor|apply ledger_invariant_empty]. }
  split; [exact Hr|].
  destruct (RunReconciliation_gorm _ Hq) as [w' [Hrun Hc]].
  exists w'. split; [|exact Hc].
  rewrite Hrun. now rewrite results_for_balanced.
Qed.

(** ** What a successful operation does *)

Lemma forall_existsb_false {A : Type} (f : A -> bool) (l : list A) :
  (forall x, In x l -> f x = false) -> existsb f l = false.
Proof.
  intros H. destruct (existsb f l) eqn:E; [|reflexivity].
  apply existsb_exists in E. destruct E as [x [Hin Hx]].
  rewrite (H x Hin) in Hx. discriminate.
Qed.

Lemma First_snoc_fresh {R : Type} (pk : R -> uuid) (cond : R -> bool)
      (tbl : list R) (x : R) :
  existsb cond tbl = false -> cond x = true ->
  First pk cond (tbl ++ [x]) = Ok x.
Proof.
  intros Hf Hx. unfold First. rewrite filter_app. cbn. rewrite Hx.
  replace (filter cond tbl) with (@nil R); [reflexivity|].
  symmetry. induction tbl as [|r tbl IH]; [reflexivity|].
  cbn in *. apply orb_false_elim in Hf. destruct Hf as [Hr Hf].
  rewrite Hr. now apply IH.
Qed.

Lemma find_snoc_fresh {A : Type} (f : A -> bool) (l : list A) (x : A) :
  existsb f l = false -> f x = true -> find f (l ++ [x]) = Some x.
Proof.
  intros Hf Hx. induction l as [|a l IH]; cbn in *.
  - now rewrite Hx.
  - apply orb_false_elim in Hf. destruct Hf as [Ha Hf]. rewrite Ha. now apply IH.
Qed.

(** The run of a fund that finds nothing in its way. *)
Lemma FundWallet_run_success :
  forall (w : World) (userID : uuid) (amount : Z) (reference : string)
         (user : User) (wallet : Wallet),
    others w = [] ->
    0 < amount ->
    transactions_GetByReference (committed w) reference = Err ErrRecordNotFound ->
    users_GetByID (committed w) userID = Ok user ->
    wallets_GetByUserID (committed w) userID = Ok wallet ->
    has_pk ID (next_id w) (transactions (committed w)) = false ->
    run (FundWallet userID amount reference) w
    = (Ok (set_Txn_User (credit_entry (next_id w) userID amount reference) user),
       mkWorld (apply_writes
                  [InsertTransaction
                     (credit_entry (next_id w) userID amount reference);
                   UpdateBalance userID (Int64.add (Balance wallet) amount)]
                  (committed w))
               None [] (entropy w) (S (drawn w)) (logs w)).
Proof.
  intros w userID amount reference user wallet Hq Hpos Href Hu Hw Hpk.
  pose proof (GetByReference_Err _ _ _ Href) as [_ Hfresh].
  alone w Hq. cbn in Href, Hu, Hw, Hfresh. unfold next_id in Hpk. simpl in Hpk.
  assert ((amount <=? 0) = false) as Hamt by (apply Z.leb_gt; lia).
  unfold run, FundWallet, next_id. rewrite Hamt.
  cbn. rewrite Href. cbn. rewrite Hu. cbn. rewrite Hw. cbn.
  rewrite Hpk, Hfresh. cbn. reflexivity.
Qed.

(** X3.  A fund with a new reference, for an owner who exists and has
    a wallet, succeeds when the id drawn for the entry is unused: it
    returns the Completed credit entry of that amount and reference with
    the owner attached, appends exactly that entry, sets the owner's
    balance to the old balance plus the amount (in int64), and leaves
    every other balance and the users as they were. *)
Theorem fund_credits_the_wallet :
  forall (w : World) (userID : uuid) (amount : Z) (reference : string)
         (user : User) (wallet : Wallet),
    others w = [] ->
    0 < amount ->
    transactions_GetByReference (committed w) reference = Err ErrRecordNotFound ->
    users_GetByID (committed w) userID = Ok user ->
    wallets_GetByUserID (committed w) userID = Ok wallet ->
    has_pk ID (next_id w) (transactions (committed w)) = false ->
    let entry := credit_entry (next_id w) userID amount reference in
    let after := committed (snd (run (FundWallet userID amount reference) w)) in
    fst (run (FundWallet userID amount reference) w) = Ok (set_Txn_User entry user)
    /\ transactions after = transactions (committed w) ++ [entry]
    /\ users after = users (committed w)
    /\ balance_of after userID = Some (Int64.add (Balance wallet) amount)
    /\ (forall other, other <> userID ->
                      balance_of after other = balance_of (committed w) other).
Proof.
  intros w userID amount reference user wallet Hq Hpos Href Hu Hw Hpk.
  cbv zeta.
  rewrite (FundWallet_run_success w userID amount reference user wallet
             Hq Hpos Href Hu Hw Hpk).
  cbn [fst snd committed].
  destruct (committed w) as [us ws ts] eqn:Es.
  cbn [apply_writes fold_left apply_write users wallets transactions].
  split; [reflexivity|]. split; [reflexivity|]. split; [reflexivity|].
  split.
  - rewrite balance_of_update, (balance_of_transactions us ws _ ts).
    unfold balance_of. rewrite Hw, N.eqb_refl. reflexivity.
  - intros other Hne. rewrite balance_of_update, (balance_of_transactions us ws _ ts).
    apply N.eqb_neq in Hne. rewrite Hne. destruct (balance_of _ other); reflexivity.
Qed.

Lemma WithdrawFunds_run_success :
  forall (w : World) (userID : uuid) (amount : Z) (reference : string)
         (user : User) (wallet : Wallet),
    others w = [] ->
    0 < amount ->
    transactions_GetByReference (committed w) reference = Err ErrRecordNotFound ->
    users_GetByID (committed w) userID = Ok user ->
    wallets_GetByUserID (committed w) userID = Ok wallet ->
    amount <= Balance wallet ->
    has_pk ID (next_id w) (transactions (committed w)) = false ->
    run (WithdrawFunds userID amount reference) w
    = (Ok (set_Txn_User (debit_entry (next_id w) userID amount reference) user),
       mkWorld (apply_writes
                  [InsertTransaction
                     (debit_entry (next_id w) userID amount reference);
                   UpdateBalance userID (Int64.sub (Balance wallet) amount)]
                  (committed w))
               None [] (entropy w) (S (drawn w)) (logs w)).
Proof.
  intros w userID amount reference user wallet Hq Hpos Href Hu Hw Hle Hpk.
  pose proof (GetByReference_Err _ _ _ Href) as [_ Hfresh].
  alone w Hq. cbn in Href, Hu, Hw, Hfresh. unfold next_id in Hpk. simpl in Hpk.
  assert ((amount <=? 0) = false) as Hamt by (apply Z.leb_gt; lia).
  assert ((Balance wallet <? amount) = false) as Hbal by (apply Z.ltb_ge; lia).
  unfold run, WithdrawFunds, next_id. rewrite Hamt.
  cbn. rewrite Href. cbn. rewrite Hu. cbn. rewrite Hw. cbn. rewrite Hbal. cbn.
  rewrite Hpk, Hfresh. cbn. reflexivity.
Qed.

Lemma TransferFunds_run_success :
  forall (w : World) (fromUserID toUserID : uuid) (amount : Z) (reference : string)
         (fromUser toUser : User) (fromWallet toWallet : Wallet),
    others w = [] ->
    0 < amount ->
    fromUserID <> toUserID ->
    transactions_GetByReference (committed w) reference = Err ErrRecordNotFound ->
    users_GetByID (committed w) fromUserID = Ok fromUser ->
    users_GetByID (committed w) toUserID = Ok toUser ->
    wallets_GetByUserID (committed w) fromUserID = Ok fromWallet ->
    wallets_GetByUserID (committed w) toUserID = Ok toWallet ->
    amount <= Balance fromWallet ->
    has_pk ID (next_id w) (transactions (committed w)) = false ->
    run (TransferFunds fromUserID toUserID amount reference) w
    = (Ok (set_Txn_Users
             (transfer_entry (next_id w) fromUserID toUserID amount reference
                             (Name toUser))
             fromUser fromUser toUser),
       mkWorld (apply_writes
                  [InsertTransaction
                     (transfer_entry (next_id w) fromUserID toUserID amount
                                     reference (Name toUser));
                   UpdateBalance fromUserID (Int64.sub (Balance fromWallet) amount);
                   UpdateBalance toUserID (Int64.add (Balance toWallet) amount)]
                  (committed w))
               None [] (entropy w) (S (drawn w)) (logs w)).
Proof.
  intros w fromUserID toUserID amount reference fromUser toUser fromWallet toWallet
         Hq Hpos Hne Href Hfu Htu Hfw Htw Hle Hpk.
  pose proof (GetByReference_Err _ _ _ Href) as [_ Hfresh].
  alone w Hq. cbn in Href, Hfu, Htu, Hfw, Htw, Hfresh.
  unfold next_id in Hpk. simpl in Hpk.
  assert ((amount <=? 0) = false) as Hamt by (apply Z.leb_gt; lia).
  assert ((Balance fromWallet <? amount) = false) as Hbal by (apply Z.ltb_ge; lia).
  apply N.eqb_neq in Hne.
  unfold run, TransferFunds, next_id. rewrite Hamt, Hne.
  cbn. rewrite Href. cbn. rewrite Hfu. cbn. rewrite Htu. cbn. rewrite Hfw. cbn.
  rewrite Hbal. cbn. rewrite Htw. cbn.
  rewrite Hpk, Hfresh. cbn. reflexivity.
Qed.

(** X4.  A withdraw with a new reference of at most the balance, for
    an owner who exists, succeeds when the id drawn for the entry is
    unused: it returns the Completed debit entry with the owner
    attached, appends exactly that entry, and the owner's balance becomes
    the old balance minus the amount, exactly and not below 0; every
    other balance stays as it was. *)
Theorem withdraw_debits_the_wallet :
  forall (w : World) (userID : uuid) (amount : Z) (reference : string)
         (user : User) (wallet : Wallet),
    others w = [] ->
    0 < amount ->
    transactions_GetByReference (committed w) reference = Err ErrRecordNotFound ->
    users_GetByID (committed w) userID = Ok user ->
    wallets_GetByUserID (committed w) userID = Ok wallet ->
    amount <= Balance wallet <= Int64.max_int ->
    has_pk ID (next_id w) (transactions (committed w)) = false ->
    let entry := debit_entry (next_id w) userID amount reference in
    let after := committed (snd (run (WithdrawFunds userID amount reference) w)) in
    fst (run (WithdrawFunds userID amount reference) w) = Ok (set_Txn_User entry user)
    /\ transactions after = transactions (committed w) ++ [entry]
    /\ balance_of after userID = Some (Balance wallet - amount)
    /\ 0 <= Balance wallet - amount
    /\ (forall other, other <> userID ->
                      balance_of after other = balance_of (committed w) other).
Proof.
  intros w userID amount reference user wallet Hq Hpos Href Hu Hw [Hle Hmax] Hpk.
  cbv zeta.
  rewrite (WithdrawFunds_run_success w userID amount reference user wallet
             Hq Hpos Href Hu Hw Hle Hpk).
  cbn [fst snd committed].
  pose proof min_int_negative.
  rewrite Int64_sub_fits by lia.
  destruct (committed w) as [us ws ts] eqn:Es.
  cbn [apply_writes fold_left apply_write users wallets transactions].
  split; [reflexivity|]. split; [reflexivity|]. split; [|split; [lia|]].
  - rewrite balance_of_update, (balance_of_transactions us ws _ ts).
    unfold balance_of. rewrite Hw, N.eqb_refl. reflexivity.
  - intros other Hne. rewrite balance_of_update, (balance_of_transactions us ws _ ts).
    apply N.eqb_neq in Hne. rewrite Hne. destruct (balance_of _ other); reflexivity.
Qed.

(** X5.  A transfer with a new reference of at most the source's
    balance, between two distinct owners who exist, succeeds when the id
    drawn for the entry is unused: it returns the Completed transfer
    entry naming both, appends exactly that entry, takes the amount from
    the source's balance exactly, adds it to the destination's (in
    int64) and leaves every other balance as it was. *)
Theorem transfer_moves_the_amount :
  forall (w : World) (fromUserID toUserID : uuid) (amount : Z) (reference : string)
         (fromUser toUser : User) (fromWallet toWallet : Wallet),
    others w = [] ->
    0 < amount ->
    fromUserID <> toUserID ->
    transactions_GetByReference (committed w) reference = Err ErrRecordNotFound ->
    users_GetByID (committed w) fromUserID = Ok fromUser ->
    users_GetByID (committed w) toUserID = Ok toUser ->
    wallets_GetByUserID (committed w) fromUserID = Ok fromWallet ->
    wallets_GetByUserID (committed w) toUserID = Ok toWallet ->
    amount <= Balance fromWallet <= Int64.max_int ->
    has_pk ID (next_id w) (transactions (committed w)) = false ->
    let entry := transfer_entry (next_id w) fromUserID toUserID amount reference
                                (Name toUser) in
    let after :=
      committed (snd (run (TransferFunds fromUserID toUserID amount reference) w)) in
    fst (run (TransferFunds fromUserID toUserID amount reference) w)
    = Ok (set_Txn_Users entry fromUser fromUser toUser)
    /\ transactions after = transactions (committed w) ++ [entry]
    /\ balance_of after fromUserID = Some (Balance fromWallet - amount)
    /\ balance_of after toUserID = Some (Int64.add (Balance toWallet) amount)
    /\ (forall other, other <> fromUserID -> other <> toUserID ->
                      balance_of after other = balance_of (committed w) other).
Proof.
  intros w fromUserID toUserID amount reference fromUser toUser fromWallet toWallet
         Hq Hpos Hne Href Hfu Htu Hfw Htw [Hle Hmax] Hpk.
  cbv zeta.
  rewrite (TransferFunds_run_success w fromUserID toUserID amount reference
             fromUser toUser fromWallet toWallet
             Hq Hpos Hne Href Hfu Htu Hfw Htw Hle Hpk).
  cbn [fst snd committed].
  pose proof min_int_negative.
  rewrite Int64_sub_fits by lia.
  destruct (committed w) as [us ws ts] eqn:Es.
  cbn [apply_writes fold_left apply_write users wallets transactions].
  assert ((fromUserID =? toUserID)%N = false) as Hft by now apply N.eqb_neq.
  assert ((toUserID =? fromUserID)%N = false) as Htf by (apply N.eqb_neq; congruence).
  split; [reflexivity|]. split; [reflexivity|]. split; [|split].
  - rewrite !balance_of_update, (balance_of_transactions us ws _ ts).
    unfold balance_of. rewrite Hfw, Hft, N.eqb_refl. reflexivity.
  - rewrite !balance_of_update, (balance_of_transactions us ws _ ts).
    unfold balance_of. rewrite Htw, Htf, N.eqb_refl. reflexivity.
  - intros other H1 H2. rewrite !balance_of_update, (balance_of_transactions us ws _ ts).
    apply N.eqb_neq in H1. apply N.eqb_neq in H2. rewrite H1, H2.
    destruct (balance_of _ other); reflexivity.
Qed.

Lemma GetByReference_after_insert (us : list User) (ws : list Wallet)
      (ts : list Transaction) (t : Transaction) :
  transactions_GetByReference (mkStore us ws ts) (Reference t) = Err ErrRecordNotFound ->
  transactions_GetByReference (mkStore us ws (ts ++ [t])) (Reference t) = Ok t.
Proof.
  intros H. apply GetByReference_Err in H. destruct H as [_ H].
  unfold transactions_GetByReference. cbn [transactions] in *.
  apply First_snoc_fresh; [exact H|]. apply String.eqb_refl.
Qed.

(** X6.  Submitting a fund twice: after a fund that succeeded, a second
    fund with the same reference, whatever its owner and amount, returns
    the entry the first one stored, changes nothing, and the balance has
    been credited once. *)
Theorem fund_twice_credits_once :
  forall (w : World) (userID userID' : uuid) (amount amount' : Z)
         (reference : string) (user : User) (wallet : Wallet),
    others w = [] ->
    0 < amount ->
    0 < amount' ->
    transactions_GetByReference (committed w) reference = Err ErrRecordNotFound ->
    users_GetByID (committed w) userID = Ok user ->
    wallets_GetByUserID (committed w) userID = Ok wallet ->
    has_pk ID (next_id w) (transactions (committed w)) = false ->
    let w1 := snd (run (FundWallet userID amount reference) w) in
    let w2 := snd (run (FundWallet userID' amount' reference) w1) in
    fst (run (FundWallet userID' amount' reference) w1)
    = Ok (credit_entry (next_id w) userID amount reference)
    /\ committed w2 = committed w1
    /\ transactions (committed w2)
       = transactions (committed w)
           ++ [credit_entry (next_id w) userID amount reference]
    /\ balance_of (committed w2) userID = Some (Int64.add (Balance wallet) amount).
Proof.
  intros w userID userID' amount amount' reference user wallet
         Hq Hpos Hpos' Href Hu Hw Hpk.
  cbv zeta.
  rewrite (FundWallet_run_success w userID amount reference user wallet
             Hq Hpos Href Hu Hw Hpk).
  cbn [snd].
  destruct (committed w) as [us ws ts] eqn:Es.
  cbn [apply_writes fold_left apply_write users wallets transactions].
  pose proof (GetByReference_after_insert us ws ts
                (credit_entry (next_id w) userID amount reference) Href) as Hget.
  cbn [Reference credit_entry] in Hget.
  assert ((amount' <=? 0) = false) as Hamt by (apply Z.leb_gt; lia).
  unfold run, FundWallet. rewrite Hamt. cbn.
  change (transactions_GetByReference
            {| users := us;
               wallets := map (update_balance userID (Int64.add (Balance wallet) amount)) ws;
               transactions := ts ++ [credit_entry (next_id w) userID amount reference] |}
            reference)
    with (transactions_GetByReference
            (mkStore us ws (ts ++ [credit_entry (next_id w) userID amount reference]))
            reference).
  rewrite Hget. cbn.
  split; [reflexivity|]. split; [reflexivity|]. split; [reflexivity|].
  rewrite balance_of_update, (balance_of_transactions us ws _ ts).
  unfold balance_of. rewrite Hw, N.eqb_refl. reflexivity.
Qed.

(** ** Users *)

Lemma GetByEmail_Err (s : Store) (email : string) (e : error) :
  users_GetByEmail s email = Err e ->
  e = ErrRecordNotFound
  /\ existsb (fun x => String.eqb (Email x) email) (users s) = false.
Proof.
  unfold users_GetByEmail.
  destruct (First User_ID _ (users s)) as [u|e'] eqn:E; [discriminate|].
  intros H. inversion H; subst. apply First_Err in E. destruct E as [-> E].
  split; [reflexivity|]. now apply forall_existsb_false.
Qed.

(** What GetByID reads once the user and the wallet are in the store. *)
Lemma GetByID_after_create (us : list User) (ws : list Wallet) (ts : list Transaction)
      (id walletID : uuid) (name email : string) :
  has_pk User_ID id us = false ->
  existsb (fun x => (Wallet_UserID x =? id)%N) ws = false ->
  users_GetByID (mkStore (us ++ [mkUser id name email None])
                         (ws ++ [mkWallet walletID id 0]) ts) id
  = Ok (mkUser id name email (Some (mkWallet walletID id 0))).
Proof.
  intros Hpk Hw. unfold users_GetByID. cbn [users].
  rewrite (First_snoc_fresh User_ID (fun u => (User_ID u =? id)%N) us
                            (mkUser id name email None) Hpk (N.eqb_refl id)).
  unfold preload_Wallet. cbn [User_ID Name Email wallets].
  rewrite (find_snoc_fresh (fun x => (Wallet_UserID x =? id)%N) ws
                           (mkWallet walletID id 0) Hw (N.eqb_refl id)).
  reflexivity.
Qed.

Lemma CreateUser_run_success :
  forall (w : World) (name email : string),
    others w = [] ->
    users_GetByEmail (committed w) email = Err ErrRecordNotFound ->
    has_pk User_ID (next_id w) (users (committed w)) = false ->
    has_pk Wallet_ID (entropy w (S (drawn w))) (wallets (committed w)) = false ->
    existsb (fun x => (Wallet_UserID x =? next_id w)%N) (wallets (committed w)) = false ->
    run (CreateUser name email) w
    = (Ok (mkUser (next_id w) name email
                  (Some (mkWallet (entropy w (S (drawn w))) (next_id w) 0))),
       mkWorld (apply_writes
                  [InsertUser (mkUser (next_id w) name email None);
                   InsertWallet (mkWallet (entropy w (S (drawn w))) (next_id w) 0)]
                  (committed w))
               None [] (entropy w) (S (S (drawn w))) (logs w)).
Proof.
  intros w name email Hq Hemail Hpk Hwpk Hwu.
  pose proof (GetByEmail_Err _ _ _ Hemail) as [_ Hfresh].
  alone w Hq. cbn in Hemail, Hfresh. unfold next_id in *. simpl in Hpk, Hwpk, Hwu.
  destruct s as [us ws ts]. cbn [users wallets] in *.
  unfold run, CreateUser.
  cbn. rewrite Hemail. cbn. unfold has_pk in *. rewrite Hpk, Hfresh. cbn.
  unfold has_pk. rewrite Hwpk, Hwu. cbn.
  f_equal. apply GetByID_after_create; assumption.
Qed.

(** X7.  Creating a user whose email is new succeeds when the two ids
    drawn are unused: the user and a wallet of balance 0 are stored
    together, nothing else changes, and the user is returned with that
    wallet attached. *)
Theorem create_user_opens_an_empty_wallet :
  forall (w : World) (name email : string),
    others w = [] ->
    users_GetByEmail (committed w) email = Err ErrRecordNotFound ->
    has_pk User_ID (next_id w) (users (committed w)) = false ->
    has_pk Wallet_ID (entropy w (S (drawn w))) (wallets (committed w)) = false ->
    existsb (fun x => (Wallet_UserID x =? next_id w)%N) (wallets (committed w)) = false ->
    let wallet := mkWallet (entropy w (S (drawn w))) (next_id w) 0 in
    let after := committed (snd (run (CreateUser name email) w)) in
    fst (run (CreateUser name email) w)
    = Ok (mkUser (next_id w) name email (Some wallet))
    /\ users after = users (committed w) ++ [mkUser (next_id w) name email None]
    /\ wallets after = wallets (committed w) ++ [wallet]
    /\ transactions after = transactions (committed w)
    /\ balance_of after (next_id w) = Some 0.
Proof.
  intros w name email Hq Hemail Hpk Hwpk Hwu. cbv zeta.
  rewrite (CreateUser_run_success w name email Hq Hemail Hpk Hwpk Hwu).
  cbn [fst snd committed].
  destruct (committed w) as [us ws ts] eqn:Es.
  cbn [apply_writes fold_left apply_write users wallets transactions] in *.
  repeat (split; [reflexivity|]).
  unfold balance_of, wallets_GetByUserID. cbn [wallets].
  rewrite (First_snoc_fresh Wallet_ID (fun x => (Wallet_UserID x =? next_id w)%N) ws
                            (mkWallet (entropy w (S (drawn w))) (next_id w) 0)
                            Hwu (N.eqb_refl _)).
  reflexivity.
Qed.

(** X8.  Creating a user with an email that is taken fails with
    ErrUserAlreadyExists (a 409 to the caller) after the one lookup by
    email, and changes nothing. *)
Theorem create_user_rejects_a_taken_email :
  forall (w : World) (name email : string) (existing : User),
    others w = [] ->
    users_GetByEmail (committed w) email = Ok existing ->
    run (CreateUser name email) w = (Err ErrUserAlreadyExists, w)
    /\ trace gorm (CreateUser name email) w
       = [Issued (User_GetByEmail BaseDB email) (Ok existing)]
    /\ CreateUser_status (fst (run (CreateUser name email) w)) = 409.
Proof.
  intros w name email existing Hq Hemail. alone w Hq. cbn in Hemail.
  unfold run, CreateUser. cbn. rewrite Hemail. cbn. repeat split.
Qed.

(** X9.  A user that CreateUser returned is what GetUserByID returns
    for its id right after; for an id that names no user GetUserByID
    fails with ErrUserNotFound (a 404 to the caller).  Neither changes
    anything. *)
Theorem get_user_reads_what_was_created :
  forall (w : World) (name email : string) (user : User) (missing : uuid),
    others w = [] ->
    fst (run (CreateUser name email) w) = Ok user ->
    let w1 := snd (run (CreateUser name email) w) in
    users_GetByID (committed w1) missing = Err ErrRecordNotFound ->
    run (GetUserByID (User_ID user)) w1 = (Ok user, w1)
    /\ run (GetUserByID missing) w1 = (Err ErrUserNotFound, w1)
    /\ GetUser_status (fst (run (GetUserByID missing) w1)) = 404.
Proof.
  intros w name email user missing Hq Hok. cbv zeta. intros Hmiss.
  pose proof (proj1 (run_stays_alone w Hq) name email) as Hq1.
  destruct (CreateUser_cases w name email Hq)
    as [[err [Herr _]]|[_ [_ [_ [_ Hres]]]]]; [congruence|].
  rewrite Hok in Hres. symmetry in Hres.
  pose proof (GetByID_Ok _ _ _ Hres) as [Hid _].
  destruct (snd (run (CreateUser name email) w)) as [s1 t1 o1 e1 d1 l1].
  cbn in Hq1, Hres, Hmiss. subst o1.
  unfold run, GetUserByID. cbn. rewrite Hid, Hres, Hmiss. cbn. repeat split.
Qed.

(** ** All or nothing *)

(** X10.  An error and a commit.  Whatever the store answers, when
    FundWallet, WithdrawFunds or TransferFunds returns an error no commit
    has gone through in that run: the error came before the unit of work,
    or the unit was rolled back, or the commit itself failed.  CreateUser
    is different: after its commit it reads the user back and returns the
    error of that read, so it can return an error with the user and the
    wallet committed; that read is the only such case.  Over gorm without
    concurrent callers, an error of fund, withdraw or transfer leaves the
    committed store as it was. *)
Theorem an_error_comes_without_a_commit :
  forall (W : Type) (h : forall X, call X -> W -> X * W) (w : W) (g : World)
         (err : error) (name email reference : string) (userID toUserID : uuid)
         (amount : Z),
    (fst (exec h (FundWallet userID amount reference) w) = Err err ->
     existsb commit_succeeded (trace h (FundWallet userID amount reference) w) = false)
    /\ (fst (exec h (WithdrawFunds userID amount reference) w) = Err err ->
        existsb commit_succeeded (trace h (WithdrawFunds userID amount reference) w)
        = false)
    /\ (fst (exec h (TransferFunds userID toUserID amount reference) w) = Err err ->
        existsb commit_succeeded
                (trace h (TransferFunds userID toUserID amount reference) w)
        = false)
    /\ (fst (exec h (CreateUser name email) w) = Err err ->
        existsb commit_succeeded (trace h (CreateUser name email) w) = true ->
        exists id,
          last (trace h (CreateUser name email) w) (Issued Rollback tt)
          = Issued (User_GetByID BaseDB id) (Err err))
    /\ (others g = [] ->
        (fst (run (FundWallet userID amount reference) g) = Err err ->
         committed (snd (run (FundWallet userID amount reference) g)) = committed g)
        /\ (fst (run (WithdrawFunds userID amount reference) g) = Err err ->
            committed (snd (run (WithdrawFunds userID amount reference) g))
            = committed g)
        /\ (fst (run (TransferFunds userID toUserID amount reference) g) = Err err ->
            committed (snd (run (TransferFunds userID toUserID amount reference) g))
            = committed g)).
Proof.
  intros W h w g err name email reference userID toUserID amount.
  split; [|split; [|split; [|split]]].
  - unfold FundWallet. explore h; intros H; try discriminate H; reflexivity.
  - unfold WithdrawFunds. explore h; intros H; try discriminate H; reflexivity.
  - unfold TransferFunds. explore h; intros H; try discriminate H; reflexivity.
  - unfold CreateUser. explore h; intros H Hc;
      try discriminate H; try discriminate Hc.
    inversion H; subst. eexists. reflexivity.
  - intros Hq. split; [|split].
    + intros Herr.
      destruct (FundWallet_cases g userID amount reference Hq)
        as [[e [_ Hc]]|[[x [Hok _]]|[u [wl [_ [_ [_ [_ [Hok _]]]]]]]]];
        [exact Hc|congruence|congruence].
    + intros Herr.
      destruct (WithdrawFunds_cases g userID amount reference Hq)
        as [[e [_ Hc]]|[[x [Hok _]]|[u [wl [_ [_ [_ [_ [_ [Hok _]]]]]]]]]];
        [exact Hc|congruence|congruence].
    + intros Herr.
      destruct (TransferFunds_cases g userID toUserID amount reference Hq)
        as [[e [_ Hc]]
           |[[x [Hok _]]
            |[fu [tu [fw [tw [_ [_ [_ [_ [_ [_ [_ [_ [Hok _]]]]]]]]]]]]]]];
        [exact Hc|congruence|congruence].
Qed.

(** An error of CreateUser with the user and the wallet committed:
    the read after the commit fails. *)
Example create_user_error_after_commit :
  fst (exec losing_reads (CreateUser "Ann Lee" "ann@example.com") after_setup)
  = Err (Errorf "invalid connection" None)
  /\ map Email
         (users (committed
                   (snd (exec losing_reads (CreateUser "Ann Lee" "ann@example.com")
                              after_setup))))
     = ["john@example.com"; "jane@example.com"; "ann@example.com"]
  /\ map Balance
         (wallets (committed
                     (snd (exec losing_reads (CreateUser "Ann Lee" "ann@example.com")
                                after_setup))))
     = [0; 0; 0].
Proof. vm_compute. repeat split; reflexivity. Qed.

(** ** Whatever the store answers *)

Section AnyStore.

Context {W : Type} (h : forall X, call X -> W -> X * W).

Lemma trace_bind {A B} (p : prog A) (f : A -> prog B) (w : W) :
  trace h (bind p f) w
  = trace h p w ++ trace h (f (fst (exec h p w))) (snd (exec h p w)).
Proof.
  revert w. induction p as [a|X c k IH]; intros w; simpl.
  - reflexivity.
  - destruct (h X c w) as [x w']. simpl. now rewrite IH.
Qed.

Lemma reconcile_loop_queries :
  forall (ws : list Wallet) (results : list ReconciliationResult) (w : W),
    forallb is_query (trace h (reconcile_loop ws results) w) = true.
Proof.
  induction ws as [|wallet rest IH]; intros results w; [reflexivity|].
  simpl.
  destruct (h _ (Transaction_GetUserTransactionSum BaseDB (Wallet_UserID wallet)) w)
    as [[c|e] w1]; simpl.
  - destruct (negb _); simpl.
    + destruct (h _ _ w1) as [[] w2]. simpl. apply IH.
    + apply IH.
  - destruct (h _ _ w1) as [[] w2]. simpl. apply IH.
Qed.

(** X11.  A reconciliation run only asks: whatever the store answers,
    the calls it issues are the list of the wallets, the sums and the
    log, so it never begins a unit of work and never writes; and the
    only error it returns is a failure to list the wallets, wrapped. *)
Theorem reconciliation_only_reads :
  forall (w : W),
    forallb is_query (trace h RunReconciliation w) = true
    /\ match fst (exec h RunReconciliation w) with
       | Ok _ => True
       | Err err =>
           exists cause,
             err = Errorf "failed to get wallets" (Some cause)
             /\ trace h RunReconciliation w
                = [Issued (log_Print LogStarting) tt;
                   Issued (Wallet_GetAllWallets BaseDB) (Err cause)]
       end.
Proof.
  intros w. unfold RunReconciliation. simpl.
  destruct (h _ (log_Print LogStarting) w) as [[] w1].
  destruct (h _ (Wallet_GetAllWallets BaseDB) w1) as [[ws|e] w2]; simpl.
  - split.
    + rewrite trace_bind, forallb_app, reconcile_loop_queries. simpl.
      destruct (h _ _ _) as [[] w3]. reflexivity.
    + rewrite exec_bind. destruct (exec h (reconcile_loop ws []) w2) as [rs w3].
      simpl. destruct (h _ _ w3) as [[] w4]. exact I.
  - split; [reflexivity|]. exists e. split; reflexivity.
Qed.

(** X12.  Whatever the store answers, each use case uses its unit of
    work well: it begins one only while none is open, makes its calls
    through it only while it is open and through the base connection
    only while none is open, and on every path, failures included, closes
    what it began with exactly one commit or rollback. *)
Theorem unit_of_work_is_always_closed :
  forall (w : W) (name email reference : string) (userID toUserID : uuid)
         (amount : Z),
    bracketed false (trace h (CreateUser name email) w) = true
    /\ bracketed false (trace h (GetUserByID userID) w) = true
    /\ bracketed false (trace h (FundWallet userID amount reference) w) = true
    /\ bracketed false (trace h (WithdrawFunds userID amount reference) w) = true
    /\ bracketed false (trace h (TransferFunds userID toUserID amount reference) w)
       = true.
Proof.
  intros. repeat split.
  - unfold CreateUser. explore h; reflexivity.
  - unfold GetUserByID. explore h; reflexivity.
  - unfold FundWallet. explore h; reflexivity.
  - unfold WithdrawFunds. explore h; reflexivity.
  - unfold TransferFunds. explore h; reflexivity.
Qed.

(** X13.  A request that is not valid is refused before the store is
    asked anything: an amount of 0 or less gives ErrInvalidAmount in
    fund, withdraw and transfer (also when the two owners of the
    transfer are the same), and a transfer of a positive amount to
    oneself gives ErrSameUser; no call is issued. *)
Theorem invalid_requests_never_reach_the_store :
  forall (w : W) (reference : string) (userID toUserID : uuid) (amount : Z),
    (amount <= 0 ->
     exec h (FundWallet userID amount reference) w = (Err ErrInvalidAmount, w)
     /\ trace h (FundWallet userID amount reference) w = []
     /\ exec h (WithdrawFunds userID amount reference) w = (Err ErrInvalidAmount, w)
     /\ trace h (WithdrawFunds userID amount reference) w = []
     /\ exec h (TransferFunds userID toUserID amount reference) w
        = (Err ErrInvalidAmount, w)
     /\ trace h (TransferFunds userID toUserID amount reference) w = [])
    /\ (0 < amount ->
        exec h (TransferFunds userID userID amount reference) w = (Err ErrSameUser, w)
        /\ trace h (TransferFunds userID userID amount reference) w = []).
Proof.
  intros w reference userID toUserID amount. split.
  - intros Hle. apply Z.leb_le in Hle.
    unfold FundWallet, WithdrawFunds, TransferFunds. rewrite Hle. repeat split.
  - intros Hpos. apply Z.leb_gt in Hpos.
    unfold TransferFunds. rewrite Hpos, N.eqb_refl. repeat split.
Qed.


End AnyStore.

(** ** Pages *)

(** X15.  The window GetTransactionHistory asks the repository for:
    the limit is always between 1 and 100 (the page size itself when it
    is in that range, 10 when it is below 1, 100 when it is above 100);
    a page below 1 counts as page 1, so its offset is 0; and as long as
    the product fits an int64 the offset is (page - 1) * limit. *)
Theorem history_window_is_bounded :
  forall (page pageSize : Z),
    let limit := fst (GetTransactionHistory_window page pageSize) in
    let offset := snd (GetTransactionHistory_window page pageSize) in
    1 <= limit <= 100
    /\ (1 <= pageSize <= 100 -> limit = pageSize)
    /\ (pageSize < 1 -> limit = 10)
    /\ (100 < pageSize -> limit = 100)
    /\ (page < 1 -> offset = 0)
    /\ (1 <= page <= 92233720368547758 ->
        offset = (page - 1) * limit /\ 0 <= offset).
Proof.
  intros page pageSize. cbv zeta.
  unfold GetTransactionHistory_window. cbn [fst snd].
  destruct (Z.ltb_spec pageSize 1) as [Hs|Hs].
  - change (10 >? 100) with false. cbn match.
    repeat split; try lia.
    + intros Hp. apply Z.ltb_lt in Hp. rewrite Hp. reflexivity.
    + destruct (Z.ltb_spec page 1); [lia|].
      unfold int_mul. rewrite Int64_sub_fits, Int64_wrap_id;
        unfold Int64.in_range, Int64.min_int, Int64.max_int; lia.
    + destruct (Z.ltb_spec page 1); [lia|].
      unfold int_mul. rewrite Int64_sub_fits, Int64_wrap_id;
        unfold Int64.in_range, Int64.min_int, Int64.max_int; lia.
  - destruct (Z.gtb_spec pageSize 100) as [Hb|Hb].
    + repeat split; try lia.
      * intros Hp. apply Z.ltb_lt in Hp. rewrite Hp. reflexivity.
      * destruct (Z.ltb_spec page 1); [lia|].
        unfold int_mul. rewrite Int64_sub_fits, Int64_wrap_id;
          unfold Int64.in_range, Int64.min_int, Int64.max_int; lia.
      * destruct (Z.ltb_spec page 1); [lia|].
        unfold int_mul. rewrite Int64_sub_fits, Int64_wrap_id;
          unfold Int64.in_range, Int64.min_int, Int64.max_int; lia.
    + repeat split; try lia.
      * intros Hp. apply Z.ltb_lt in Hp. rewrite Hp. reflexivity.
      * destruct (Z.ltb_spec page 1); [lia|].
        unfold int_mul. rewrite Int64_sub_fits, Int64_wrap_id;
          unfold Int64.in_range, Int64.min_int, Int64.max_int; nia.
      * destruct (Z.ltb_spec page 1); [lia|].
        unfold int_mul. rewrite Int64_sub_fits, Int64_wrap_id;
          unfold Int64.in_range, Int64.min_int, Int64.max_int; nia.
Qed.

(** X16.  The number of pages of a response: for a count of at least 0
    and a page size of at least 1 (whose sum fits an int64) it is the
    least number of pages that holds all the entries, 0 for no entry;
    a page size of 0 makes the division panic. *)
Theorem total_pages_covers_the_entries :
  forall (total pageSize : Z),
    0 <= total ->
    1 <= pageSize ->
    total + pageSize <= Int64.max_int ->
    exists n,
      totalPages total pageSize = Some n
      /\ 0 <= n
      /\ (n - 1) * pageSize < total <= n * pageSize
      /\ totalPages total 0 = None.
Proof.
  intros total pageSize Ht Hp Hfit.
  unfold totalPages. destruct (Z.eqb_spec pageSize 0) as [E|E]; [lia|].
  pose proof min_int_negative.
  rewrite Int64_add_fits by lia. rewrite Int64_sub_fits by lia.
  rewrite Z.quot_div_nonneg by lia.
  assert (0 <= (total + pageSize - 1) / pageSize) as Hn by (apply Z.div_pos; lia).
  assert ((total + pageSize - 1) / pageSize <= total + pageSize - 1) as Hle.
  { apply Z.div_le_upper_bound; nia. }
  rewrite Int64_wrap_id by (unfold Int64.in_range; lia).
  eexists. split; [reflexivity|]. split; [exact Hn|]. split; [|reflexivity].
  pose proof (Z.div_mod (total + pageSize - 1) pageSize ltac:(lia)) as Hdm.
  pose proof (Z.mod_pos_bound (total + pageSize - 1) pageSize ltac:(lia)) as Hm.
  nia.
Qed.

(** ** Configuration *)

(** X17.  Load never fails: whatever the environment holds and
    whatever Atoi answers, it returns a configuration; the name of the
    database is the variable DB_NAME, or "wallet_service" when that is
    unset or empty, so it is never empty and the check for it never
    fires; a page size that is unset or does not parse keeps its
    default. *)
Theorem load_always_returns_a_configuration :
  forall (Getenv : string -> string) (Atoi : string -> result Z),
    exists config,
      Load Getenv Atoi = Ok config
      /\ Db_Name (Database config) <> ""
      /\ (Getenv "DB_NAME" = "" -> Db_Name (Database config) = "wallet_service")
      /\ (Getenv "DB_NAME" <> "" -> Db_Name (Database config) = Getenv "DB_NAME")
      /\ (Getenv "DEFAULT_PAGE_SIZE" = "" -> DefaultPageSize (App config) = 10)
      /\ (forall e, Atoi (Getenv "MAX_PAGE_SIZE") = Err e ->
                    MaxPageSize (App config) = 100)
      /\ (forall n, Getenv "MAX_PAGE_SIZE" <> "" ->
                    Atoi (Getenv "MAX_PAGE_SIZE") = Ok n ->
                    MaxPageSize (App config) = n).
Proof.
  intros Getenv Atoi. unfold Load.
  assert (getEnv Getenv "DB_NAME" "wallet_service" <> "") as Hname.
  { unfold getEnv. destruct (String.eqb_spec (Getenv "DB_NAME") ""); cbn;
      [discriminate|assumption]. }
  cbn [Database Db_Name]. apply String.eqb_neq in Hname. rewrite Hname.
  apply String.eqb_neq in Hname.
  eexists. split; [reflexivity|]. cbn [Database Db_Name App DefaultPageSize MaxPageSize].
  split; [exact Hname|]. repeat split.
  - intros H. unfold getEnv. rewrite H. reflexivity.
  - intros H. unfold getEnv. apply String.eqb_neq in H. rewrite H. reflexivity.
  - intros H. unfold page_size_setting. rewrite H. reflexivity.
  - intros e H. unfold page_size_setting. rewrite H.
    destruct (negb _); reflexivity.
  - intros n Hne H. unfold page_size_setting. rewrite H.
    apply String.eqb_neq in Hne. rewrite Hne. reflexivity.
Qed.

(** ** The count of the mismatches *)

(** X18.  countMismatches counts the results whose flag is set: it is
    never more than the number of results, and it is 0 exactly when no
    result has a mismatch. *)
Theorem countMismatches_counts_the_flags :
  forall (results : list ReconciliationResult),
    countMismatches results = List.length (filter HasMismatch results)
    /\ (countMismatches results <= List.length results)%nat
    /\ (countMismatches results = 0%nat
        <-> Forall (fun r => HasMismatch r = false) results).
Proof.
  intros results. induction results as [|r rs [IH1 [IH2 IH3]]].
  - repeat split; auto.
  - cbn [countMismatches filter List.length]. destruct (HasMismatch r) eqn:E.
    + cbn [List.length]. rewrite IH1. split; [reflexivity|]. split; [lia|].
      split; [discriminate|]. intros H. inversion H; subst. congruence.
    + split; [exact IH1|]. split; [lia|]. rewrite IH3. split.
      * intros H. constructor; assumption.
      * intros H. inversion H; subst. assumption.
Qed.

(** ** Instances *)

Lemma reconciliation_finds_no_mismatch_witness :
  reconciled (committed (perform_all flow (alone empty_Store ids))).
Proof.
  apply (reconciliation_finds_no_mismatch flow ids).
  cbn [credits_fit credit_fits flow]. repeat split;
    intros wallet H; vm_compute in H; inversion H; subst; cbn; lia.
Defined.

Lemma fund_credits_the_wallet_witness :
  balance_of (committed (snd (run (FundWallet john 10000 "fund_001") after_setup))) john
  = Some (Int64.add (Balance john_new_wallet) 10000).
Proof.
  apply (fund_credits_the_wallet after_setup john 10000 "fund_001"
                                 john_new john_new_wallet).
  - reflexivity.
  - lia.
  - vm_compute. reflexivity.
  - vm_compute. reflexivity.
  - vm_compute. reflexivity.
  - vm_compute. reflexivity.
Defined.

Lemma withdraw_debits_the_wallet_witness :
  balance_of (committed (snd (run (WithdrawFunds john 1000 "w9") after_flow))) john
  = Some (Balance john_wallet - 1000).
Proof.
  apply (withdraw_debits_the_wallet after_flow john 1000 "w9" john_user john_wallet).
  - reflexivity.
  - lia.
  - vm_compute. reflexivity.
  - vm_compute. reflexivity.
  - vm_compute. reflexivity.
  - cbn. unfold Int64.max_int. lia.
  - vm_compute. reflexivity.
Defined.

Lemma transfer_moves_the_amount_witness :
  balance_of (committed (snd (run (TransferFunds john jane 1000 "t9") after_flow))) jane
  = Some (Int64.add (Balance jane_wallet) 1000).
Proof.
  apply (transfer_moves_the_amount after_flow john jane 1000 "t9"
                                   john_user jane_user john_wallet jane_wallet).
  - reflexivity.
  - lia.
  - discriminate.
  - vm_compute. reflexivity.
  - vm_compute. reflexivity.
  - vm_compute. reflexivity.
  - vm_compute. reflexivity.
  - vm_compute. reflexivity.
  - cbn. unfold Int64.max_int. lia.
  - vm_compute. reflexivity.
Defined.

Lemma fund_twice_credits_once_witness :
  balance_of
    (committed
       (snd (run (FundWallet jane 7 "f9")
                 (snd (run (FundWallet john 500 "f9") after_flow))))) john
  = Some (Int64.add (Balance john_wallet) 500).
Proof.
  apply (fund_twice_credits_once after_flow john jane 500 7 "f9" john_user john_wallet).
  - reflexivity.
  - lia.
  - lia.
  - vm_compute. reflexivity.
  - vm_compute. reflexivity.
  - vm_compute. reflexivity.
  - vm_compute. reflexivity.
Defined.

Lemma create_user_opens_an_empty_wallet_witness :
  fst (run (CreateUser "Ann Lee" "ann@example.com") after_setup)
  = Ok (mkUser (next_id after_setup) "Ann Lee" "ann@example.com"
               (Some (mkWallet (entropy after_setup (S (drawn after_setup)))
                               (next_id after_setup) 0))).
Proof.
  apply (create_user_opens_an_empty_wallet after_setup "Ann Lee" "ann@example.com").
  - reflexivity.
  - vm_compute. reflexivity.
  - vm_compute. reflexivity.
  - vm_compute. reflexivity.
  - vm_compute. reflexivity.
Defined.

Lemma create_user_rejects_a_taken_email_witness :
  run (CreateUser "Johnny" "john@example.com") after_setup
  = (Err ErrUserAlreadyExists, after_setup).
Proof.
  apply (create_user_rejects_a_taken_email after_setup "Johnny" "john@example.com"
                                           john_new).
  - reflexivity.
  - vm_compute. reflexivity.
Defined.

Lemma get_user_reads_what_was_created_witness :
  run (GetUserByID (User_ID ann))
      (snd (run (CreateUser "Ann Lee" "ann@example.com") after_setup))
  = (Ok ann, snd (run (CreateUser "Ann Lee" "ann@example.com") after_setup)).
Proof.
  apply (get_user_reads_what_was_created after_setup "Ann Lee" "ann@example.com"
                                         ann nobody).
  - reflexivity.
  - vm_compute. reflexivity.
  - vm_compute. reflexivity.
Defined.

Lemma an_error_comes_without_a_commit_witness :
  committed (snd (run (WithdrawFunds john 6000 "w2") after_flow))
  = committed after_flow.
Proof.
  destruct (an_error_comes_without_a_commit World gorm after_flow after_flow
              ErrInsufficientFunds "Ann Lee" "ann@example.com" "w2" john jane 6000)
    as [_ [_ [_ [_ H]]]].
  destruct (H eq_refl) as [_ [Hw _]].
  apply Hw. vm_compute. reflexivity.
Defined.

Lemma total_pages_covers_the_entries_witness :
  exists n,
    totalPages 25 10 = Some n
    /\ 0 <= n
    /\ (n - 1) * 10 < 25 <= n * 10
    /\ totalPages 25 0 = None.
Proof.
  apply (total_pages_covers_the_entries 25 10).
  - lia.
  - lia.
  - unfold Int64.max_int. lia.
Defined.

Example three_pages : totalPages 25 10 = Some 3.
Proof. reflexivity. Qed.

Example load_test_env :
  option_map (fun c => (Db_Name (Database c), GetServerAddress c))
             (match Load test_env (fun _ => Err (Errorf "invalid syntax" None)) with
              | Ok c => Some c
              | Err _ => None
              end)
  = Some ("wallet_service_test", "localhost:8080").
Proof. vm_compute. reflexivity. Qed.
